(** * CountryTable (src/scripts.ts): pagination, search and sort controller

    A shallow embedding of the [CountryTable] class and the properties of
    its event handlers.

    Conventions of the model.
    - A JavaScript string is a Rocq [string]; each character stands for one
      UTF-16 code unit below 256.
    - A JavaScript number that holds an integer is a [Z] (all the numbers the
      class computes with are page numbers, page sizes, offsets and counts).
    - [limit] has the type the source declares: it is one of 5, 10 and 20.
      A parsed body is untyped in the source: it is an array of countries
      or something the loop of [renderItems] throws on.
    - The handlers run one at a time, each to completion: [await] is
      sequencing, and the answers of the network are read from the
      environment held in the [World].
    - The sort icons written by [handleSortClick] are DOM nodes that nothing
      else reads; they are left out of the [Document]. The exception that
      [document.querySelector] throws on a selector it cannot parse is
      kept. *)

From Stdlib Require Import ZArith String Ascii List Bool DecimalString Lia.
Import ListNotations.

Open Scope string_scope.
Open Scope Z_scope.

(** ** Platform functions used by the class *)

Module Js.

(** Code units that [String.prototype.trim] strips: TAB, LF, VT, FF, CR,
    SPACE and NBSP (the white space and line terminators below 256). *)
Definition isWhiteSpace (c : ascii) : bool :=
  let n := Z.of_N (N_of_ascii c) in
  ((9 <=? n) && (n <=? 13)) || (n =? 32) || (n =? 160).

Fixpoint trimStart (s : string) : string :=
  match s with
  | EmptyString => EmptyString
  | String c rest => if isWhiteSpace c then trimStart rest else s
  end.

Fixpoint trimEnd (s : string) : string :=
  match s with
  | EmptyString => EmptyString
  | String c rest =>
      match trimEnd rest with
      | EmptyString => if isWhiteSpace c then EmptyString else String c EmptyString
      | kept => String c kept
      end
  end.

Definition trim (s : string) : string := trimEnd (trimStart s).

(** [s.length] *)
Definition length (s : string) : Z := Z.of_nat (String.length s).

(** [`${n}`] for an integer [n] *)
Definition toString (n : Z) : string := NilZero.string_of_int (Z.to_int n).

(** [Math.ceil(a / b)] for integers [a] and [b] with [0 < b] *)
Definition ceilDiv (a b : Z) : Z := - ((- a) / b).

(** [toLocaleLowerCase] on code units below 256 (root locale) *)
Definition lowerUnit (c : ascii) : ascii :=
  let n := Z.of_N (N_of_ascii c) in
  if ((65 <=? n) && (n <=? 90))
     || ((192 <=? n) && (n <=? 222) && negb (n =? 215))
  then ascii_of_N (Z.to_N (n + 32)) else c.

Fixpoint toLocaleLowerCase (s : string) : string :=
  match s with
  | EmptyString => EmptyString
  | String c rest => String (lowerUnit c) (toLocaleLowerCase rest)
  end.

(** *** [new URLSearchParams(record).toString()]:
    the application/x-www-form-urlencoded serializer over UTF-8 *)

Definition hexDigit (n : Z) : ascii :=
  ascii_of_N (Z.to_N (if n <? 10 then 48 + n else 55 + n)).

Definition percentEncode (byte : Z) : string :=
  String "%" (String (hexDigit (byte / 16)) (String (hexDigit (byte mod 16)) EmptyString)).

Definition isUrlencodedSafe (byte : Z) : bool :=
  ((48 <=? byte) && (byte <=? 57))         (* 0-9 *)
  || ((65 <=? byte) && (byte <=? 90))      (* A-Z *)
  || ((97 <=? byte) && (byte <=? 122))     (* a-z *)
  || (byte =? 42) || (byte =? 45) || (byte =? 46) || (byte =? 95). (* * - . _ *)

Definition encodeByte (byte : Z) : string :=
  if byte =? 32 then "+"
  else if isUrlencodedSafe byte then String (ascii_of_N (Z.to_N byte)) EmptyString
  else percentEncode byte.

(** UTF-8 bytes of one code unit below 256 *)
Definition utf8 (c : ascii) : list Z :=
  let n := Z.of_N (N_of_ascii c) in
  if n <? 128 then [n] else [192 + n / 64; 128 + n mod 64].

Fixpoint urlencode (s : string) : string :=
  match s with
  | EmptyString => EmptyString
  | String c rest =>
      String.concat "" (map encodeByte (utf8 c)) ++ urlencode rest
  end.

Definition URLSearchParams_toString (record : list (string * string)) : string :=
  String.concat "&" (map (fun kv => urlencode (fst kv) ++ "=" ++ urlencode (snd kv)) record).

End Js.

(** ** Data *)

Module Currency.
Record t := { code : string; name : string; symbol : string }.
End Currency.

Module Language.
Record t := { code : string; name : string }.
End Language.

Module Country.
Record t := {
  name : string;
  code : string;
  capital : string;
  region : string;
  currency : Currency.t;
  language : Language.t;
  flag : string;
  dialling_code : string;
  isoCode : string
}.
End Country.

(** The type [5 | 10 | 20] of the [limit] field *)
Inductive Limit := L5 | L10 | L20.

Definition limitValue (l : Limit) : Z :=
  match l with L5 => 5 | L10 => 10 | L20 => 20 end.

(** The type ['asc' | 'desc'] *)
Inductive SortDirection := asc | desc.

Definition directionString (d : SortDirection) : string :=
  match d with asc => "asc" | desc => "desc" end.

(** The private fields of the class. [selectElement] and
    [entriesAmountSpan] are references into the [Document] below. *)
Record CountryTable := {
  apiUrl : string;
  currentPage : Z;
  limit : Limit;
  searchParams : list (string * string);   (* own keys in insertion order *)
  sortColumn : option string;              (* [None] is null *)
  sortDirection : SortDirection
}.

(** One [<tr>] appended by [renderItems]: the values interpolated into the
    row template, in the order of its cells. *)
Record Row := {
  imgSrc : string;
  nameCell : string;
  capitalCell : string;
  currencyCell : string;
  languageCell : string
}.

(** An exception value; only its [message] is read. *)
Record Error := { message : string }.

(** The part of the page the class writes to. [None] stands for an element
    that [querySelector] does not find. [querySelectorError selector] is
    [Some e] when [document.querySelector(selector)] throws [e], the
    [SyntaxError] of a selector that does not parse. *)
Record Document := {
  tbody : option (list Row);
  entriesAmount : option string;
  querySelectorError : string -> option Error
}.

Inductive Outcome (A : Type) :=
| Normal (a : A)
| Thrown (e : Error).
Arguments Normal {A} a.
Arguments Thrown {A} e.

(** What [json()] resolves to, as the loop of [renderItems] sees it: an
    array of countries, each with the texts the row template reads; or
    anything else, on which the loop throws [e] (the [TypeError] of a value
    without [forEach], or of an item the template cannot read) after it has
    rendered the countries [rendered] that come first in an array (none for
    a value that is not an array). *)
Inductive Json :=
| Countries (countries : list Country.t)
| NotCountries (rendered : list Country.t) (e : Error).

(** What [fetch] resolves to: the integer that the [X-Total-Count] header
    holds ([None] when the header is absent) and the result of [json()],
    a parsed value or an exception. *)
Record Response := {
  xTotalCount : option Z;
  body : Outcome Json
}.

(** The endpoint: the outcome of the [n]-th call of [fetch] (counting from
    0) on a given URL. *)
Definition Network := nat -> string -> Outcome Response.

Record World := {
  this : CountryTable;
  document : Document;
  console : list (string * string);   (* [console.error] calls, oldest first *)
  network : Network;
  requests : list string              (* URLs given to [fetch], oldest first *)
}.

(** ** Computations: state and exceptions *)

Definition Prog (A : Type) : Type := World -> Outcome A * World.

Definition ret {A} (a : A) : Prog A := fun w => (Normal a, w).

Definition bind {A B} (m : Prog A) (k : A -> Prog B) : Prog B :=
  fun w =>
    match m w with
    | (Normal a, w') => k a w'
    | (Thrown e, w') => (Thrown e, w')
    end.

Definition throw {A} (e : Error) : Prog A := fun w => (Thrown e, w).

Definition tryCatch {A} (body : Prog A) (handler : Error -> Prog A) : Prog A :=
  fun w =>
    match body w with
    | (Normal a, w') => (Normal a, w')
    | (Thrown e, w') => handler e w'
    end.

Declare Scope prog_scope.
Delimit Scope prog_scope with prog.
Notation "x <- m ;; k" := (bind m (fun x => k))
  (at level 100, m at next level, right associativity) : prog_scope.
Notation "m ;; k" := (bind m (fun _ => k))
  (at level 100, right associativity) : prog_scope.
Notation "'try' b 'catch' x => h" := (tryCatch b (fun x => h))
  (at level 100, b at next level, x name, h at next level) : prog_scope.
Open Scope prog_scope.

Definition run {A} (m : Prog A) (w : World) : World := snd (m w).
Definition result {A} (m : Prog A) (w : World) : Outcome A := fst (m w).

(** Updates of one component of the world *)
Definition putThis (c : CountryTable) (w : World) : World :=
  {| this := c; document := document w; console := console w;
     network := network w; requests := requests w |}.

Definition putDocument (d : Document) (w : World) : World :=
  {| this := this w; document := d; console := console w;
     network := network w; requests := requests w |}.

Definition logged (entry : string * string) (w : World) : World :=
  {| this := this w; document := document w; console := (console w ++ [entry])%list;
     network := network w; requests := requests w |}.

Definition requested (url : string) (w : World) : World :=
  {| this := this w; document := document w; console := console w;
     network := network w; requests := (requests w ++ [url])%list |}.

Definition getThis : Prog CountryTable := fun w => (Normal (this w), w).
Definition setThis (c : CountryTable) : Prog unit := fun w => (Normal tt, putThis c w).
Definition getDocument : Prog Document := fun w => (Normal (document w), w).
Definition setDocument (d : Document) : Prog unit :=
  fun w => (Normal tt, putDocument d w).

(** [console.error(prefix, message)] *)
Definition consoleError (prefix msg : string) : Prog unit :=
  fun w => (Normal tt, logged (prefix, msg) w).

(** [await fetch(url)]: the request is recorded and the endpoint answers *)
Definition fetch (url : string) : Prog Response :=
  fun w => (network w (List.length (requests w)) url, requested url w).

(** [await response.json()] *)
Definition json (response : Response) : Prog Json :=
  fun w => (body response, w).

(** Field assignments [this.f = v] *)
Definition withCurrentPage (p : Z) (self : CountryTable) : CountryTable :=
  {| apiUrl := apiUrl self; currentPage := p; limit := limit self;
     searchParams := searchParams self; sortColumn := sortColumn self;
     sortDirection := sortDirection self |}.

Definition withLimit (l : Limit) (self : CountryTable) : CountryTable :=
  {| apiUrl := apiUrl self; currentPage := currentPage self; limit := l;
     searchParams := searchParams self; sortColumn := sortColumn self;
     sortDirection := sortDirection self |}.

Definition withSearchParams (p : list (string * string)) (self : CountryTable)
  : CountryTable :=
  {| apiUrl := apiUrl self; currentPage := currentPage self;
     limit := limit self; searchParams := p; sortColumn := sortColumn self;
     sortDirection := sortDirection self |}.

Definition withSortColumn (c : option string) (self : CountryTable) : CountryTable :=
  {| apiUrl := apiUrl self; currentPage := currentPage self;
     limit := limit self; searchParams := searchParams self;
     sortColumn := c; sortDirection := sortDirection self |}.

Definition withSortDirection (d : SortDirection) (self : CountryTable)
  : CountryTable :=
  {| apiUrl := apiUrl self; currentPage := currentPage self;
     limit := limit self; searchParams := searchParams self;
     sortColumn := sortColumn self; sortDirection := d |}.

Definition assign (update : CountryTable -> CountryTable) : Prog unit :=
  self <- getThis;;
  setThis (update self).

Definition setCurrentPage (p : Z) : Prog unit := assign (withCurrentPage p).
Definition setLimit (l : Limit) : Prog unit := assign (withLimit l).
Definition setSearchParams (p : list (string * string)) : Prog unit :=
  assign (withSearchParams p).
Definition setSortColumn (c : option string) : Prog unit := assign (withSortColumn c).
Definition setSortDirection (d : SortDirection) : Prog unit :=
  assign (withSortDirection d).

(** ** The methods of [CountryTable] *)

(** [Number(response.headers.get('X-Total-Count'))]: an absent header reads
    as null, and [Number(null)] is 0. *)
Definition totalCountOf (response : Response) : Z :=
  match xTotalCount response with
  | Some n => n
  | None => 0
  end.

(** get number of entries for the text above pagination buttons *)
Definition getNumberOfEntries : Prog Z :=
  try (self <- getThis;;
       response <- fetch (apiUrl self ++ "?_limit=1");;
       ret (totalCountOf response))
  catch error =>
      (consoleError "Error fetching total amount of API entries:" (message error);;
       ret 0).

(** [Object.keys(o).length > 0] *)
Definition hasKeys (o : list (string * string)) : bool :=
  match o with [] => false | _ :: _ => true end.

(** Truthiness of a [string | null] value *)
Definition truthy (v : option string) : bool :=
  match v with
  | None => false
  | Some EmptyString => false
  | Some (String _ _) => true
  end.

(** [`${v}`] for a [string | null] value *)
Definition interpolate (v : option string) : string :=
  match v with
  | None => "null"
  | Some s => s
  end.

Definition buildApiUrl (self : CountryTable) (baseApiUrl : string) : string :=
  let apiUrlWithParams := baseApiUrl in
  let apiUrlWithParams :=
    if hasKeys (searchParams self)
    then apiUrlWithParams ++ "&" ++ Js.URLSearchParams_toString (searchParams self)
    else apiUrlWithParams in
  let apiUrlWithParams :=
    if truthy (sortColumn self) && truthy (Some (directionString (sortDirection self)))
    then apiUrlWithParams ++ "&_sort=" ++ interpolate (sortColumn self)
                          ++ "&_order=" ++ directionString (sortDirection self)
    else apiUrlWithParams in
  apiUrlWithParams.

Definition renderRow (country : Country.t) : Row :=
  {| imgSrc := "https://www.worldatlas.com/r/w425/img/flag/"
               ++ Js.toLocaleLowerCase (Country.code country) ++ "-flag.jpg";
     nameCell := Country.name country;
     capitalCell := Country.capital country;
     currencyCell := Currency.name (Country.currency country);
     languageCell := Language.name (Country.language country) |}.

(** [tBodyElement.innerHTML = ''] followed by one [appendChild] per country *)
Definition renderItems (countries : list Country.t) : Prog unit :=
  doc <- getDocument;;
  match tbody doc with
  | Some _ =>
      setDocument
        {| tbody := Some (fold_left (fun rows country => (rows ++ [renderRow country])%list)
                                    countries []);
           entriesAmount := entriesAmount doc;
           querySelectorError := querySelectorError doc |}
  | None => ret tt
  end.

(** [this.renderItems(data)] for the untyped [data] of [fetchData]. On a
    value that is not an array of countries the body of [renderItems] does
    nothing where there is no [tbody]; where there is one it clears the
    rows, appends those of the countries that come first and throws. *)
Definition renderData (data : Json) : Prog unit :=
  match data with
  | Countries countries => renderItems countries
  | NotCountries rendered e =>
      doc <- getDocument;;
      match tbody doc with
      | Some _ => (renderItems rendered;; throw e)
      | None => ret tt
      end
  end.

(** [this.entriesAmountSpan.innerHTML = text] *)
Definition setEntriesAmount (text : string) : Prog unit :=
  doc <- getDocument;;
  setDocument {| tbody := tbody doc; entriesAmount := Some text;
                 querySelectorError := querySelectorError doc |}.

(** The offset and the URL that [fetchData] computes from the fields *)
Definition offsetOf (self : CountryTable) : Z :=
  (currentPage self - 1) * limitValue (limit self).

Definition requestUrl (self : CountryTable) : string :=
  let offset := offsetOf self in
  let baseApiUrl :=
    apiUrl self ++ "?_limit=" ++ Js.toString (limitValue (limit self))
                ++ "&_start=" ++ Js.toString offset in
  buildApiUrl self baseApiUrl.

Definition summaryText (offset lim totalEntries : Z) : string :=
  "Showing " ++ Js.toString (offset + 1) ++ " to " ++ Js.toString (offset + lim)
             ++ " of " ++ Js.toString totalEntries ++ " Entries".

Definition fetchData : Prog unit :=
  try (self <- getThis;;
       let offset := offsetOf self in
       let apiUrlWithParams := requestUrl self in
       response <- fetch apiUrlWithParams;;
       data <- json response;;
       renderData data;;
       doc <- getDocument;;
       match entriesAmount doc with
       | Some _ =>
           totalEntries <- getNumberOfEntries;;
           self <- getThis;;
           setEntriesAmount (summaryText offset (limitValue (limit self)) totalEntries)
       | None => ret tt
       end)
  catch error =>
      (consoleError "Error fetching data from API:" (message error)).

(** entry limit logic; [value] is [Number(selectedValue) as 5 | 10 | 20] *)
Definition handleSelectChange (value : Limit) : Prog unit :=
  setLimit value;;
  setCurrentPage 1;;
  fetchData.

(** search inputs; [value] is the text of [#input{index}] when the event
    fires (the listener is bound only where that element exists) *)
Definition handleInput (index : Z) (value : string) : Prog unit :=
  let inputValue := Js.trim value in
  (if 2 <=? Js.length inputValue
   then
     match index with
     | 1 => setSearchParams [("name_like", inputValue)]
     | 2 => setSearchParams [("capital_like", inputValue)]
     | 3 => setSearchParams [("currency.name_like", inputValue)]
     | 4 => setSearchParams [("language.name_like", inputValue)]
     | _ => ret tt
     end
   else
     (* clear results if input is too short *)
     setSearchParams []);;
  setCurrentPage 1;;
  fetchData.

(** next & prev button logic *)
Definition handlePrevButtonClick : Prog unit :=
  self <- getThis;;
  if 1 <? currentPage self
  then (setCurrentPage (currentPage self - 1);;
        fetchData)
  else ret tt.

Definition handleNextButtonClick : Prog unit :=
  try (totalEntries <- getNumberOfEntries;;
       self <- getThis;;
       let totalPages := Js.ceilDiv totalEntries (limitValue (limit self)) in
       if currentPage self <? totalPages
       then (setCurrentPage (currentPage self + 1);;
             fetchData)
       else ret tt)
  catch error =>
      (consoleError "Error handling next button click:" (message error)).

(** [column === this.sortColumn] *)
Definition strictEq (column : string) (current : option string) : bool :=
  match current with
  | Some c => String.eqb column c
  | None => false
  end.

(** The selector of the clicked column: [data-column=] and the column
    between double quotes, in square brackets *)
Definition dataColumnSelector (column : string) : string :=
  "[data-column=" ++ String (ascii_of_nat 34)
                            (column ++ String (ascii_of_nat 34) "]").

(** [document.querySelector(selector)], for its exception only *)
Definition querySelector (selector : string) : Prog unit :=
  doc <- getDocument;;
  match querySelectorError doc selector with
  | Some e => throw e
  | None => ret tt
  end.

(** column sorting logic *)
Definition handleSortClick (column : string) : Prog unit :=
  self <- getThis;;
  setSortDirection
    (if strictEq column (sortColumn self)
     then (match sortDirection self with asc => desc | desc => asc end)
     else asc);;
  setSortColumn (Some column);;
  (* update icon *)
  querySelector (dataColumnSelector column);;
  fetchData.

(** ** Construction and the event listeners *)

Inductive Event :=
| SelectChange (value : Limit)
| InputEvent (index : Z) (value : string)
| PrevClick
| NextClick
| ColumnClick (dataColumn : option string).

(** The listeners installed by [setupEventListeners] *)
Definition dispatch (e : Event) : Prog unit :=
  match e with
  | SelectChange value => handleSelectChange value
  | InputEvent index value =>
      if (1 <=? index) && (index <=? 4) then handleInput index value else ret tt
  | PrevClick => handlePrevButtonClick
  | NextClick => handleNextButtonClick
  | ColumnClick dataColumn =>
      match dataColumn with
      | Some columnName => if truthy dataColumn then handleSortClick columnName else ret tt
      | None => ret tt
      end
  end.

(** The field initialisers of the class *)
Definition initialFields (url : string) : CountryTable :=
  {| apiUrl := url; currentPage := 1; limit := L5; searchParams := [];
     sortColumn := None; sortDirection := asc |}.

(** [new CountryTable(url)] on a page [doc] against an endpoint [net] *)
Definition newCountryTable (url : string) (doc : Document) (net : Network) : World :=
  run fetchData
      {| this := initialFields url; document := doc; console := [];
         network := net; requests := [] |}.

(** The worlds the page can be in: after construction and any sequence of
    events. *)
Inductive reachable : World -> Prop :=
| reachable_new : forall url doc net, reachable (newCountryTable url doc net)
| reachable_event : forall w e, reachable w -> reachable (run (dispatch e) w).

(** ** Vocabulary of the statements *)

(** The URL of the count request and the number [getNumberOfEntries]
    makes of the endpoint's answer *)
Definition countUrl (self : CountryTable) : string := apiUrl self ++ "?_limit=1".

Definition countAnswer (answer : Outcome Response) : Z :=
  match answer with
  | Normal response => totalCountOf response
  | Thrown _ => 0
  end.

(** The answer the endpoint gives to the next request, if it asks for [url] *)
Definition nextAnswer (w : World) (url : string) : Outcome Response :=
  network w (List.length (requests w)) url.

(** The requests made in going from [w] to [w'] *)
Definition issued (w w' : World) : list string :=
  skipn (List.length (requests w)) (requests w').

(** Going from [w] to [w'] started a refresh of the fields of [w'], after
    [before] other requests. *)
Definition refreshedAfter (before : nat) (w w' : World) : Prop :=
  nth_error (issued w w') before = Some (requestUrl (this w')).

(** The key under which the [index]-th search input filters *)
Definition filterParam (index : Z) : string :=
  match index with
  | 1 => "name_like"
  | 2 => "capital_like"
  | 3 => "currency.name_like"
  | _ => "language.name_like"
  end.

(** What the event listeners maintain about the fields *)
Record wellFormed (self : CountryTable) : Prop := {
  page_positive : 1 <= currentPage self;
  single_filter : (List.length (searchParams self) <= 1)%nat;
  sort_named : sortColumn self <> Some ""
}.

(** The query of the specification: limit, start index, at most one filter
    pair and at most one sort key with its direction. *)
Record Query := {
  qLimit : Z;
  qStart : Z;
  qFilter : option (string * string);
  qSort : option (string * SortDirection)
}.

Definition queryOf (self : CountryTable) : Query :=
  {| qLimit := limitValue (limit self);
     qStart := (currentPage self - 1) * limitValue (limit self);
     qFilter := hd_error (searchParams self);
     qSort := match sortColumn self with
              | Some column => Some (column, sortDirection self)
              | None => None
              end |}.

Definition queryString (q : Query) : string :=
  "?_limit=" ++ Js.toString (qLimit q) ++ "&_start=" ++ Js.toString (qStart q)
  ++ match qFilter q with
     | Some (field, text) => "&" ++ Js.urlencode field ++ "=" ++ Js.urlencode text
     | None => ""
     end
  ++ match qSort q with
     | Some (column, direction) =>
         "&_sort=" ++ column ++ "&_order=" ++ directionString direction
     | None => ""
     end.

(** The other direction *)
Definition flipped (d : SortDirection) : SortDirection :=
  match d with asc => desc | desc => asc end.

(** The fields after the filter assignment of [handleInput] *)
Definition filtered (index : Z) (value : string) (self : CountryTable) : CountryTable :=
  let inputValue := Js.trim value in
  if 2 <=? Js.length inputValue
  then if (1 <=? index) && (index <=? 4)
       then withSearchParams [(filterParam index, inputValue)] self
       else self
  else withSearchParams [] self.

(** The exception, if any, of the selector lookup of [handleSortClick] *)
Definition selectorError (w : World) (column : string) : option Error :=
  querySelectorError (document w) (dataColumnSelector column).

(** The three ways a refresh started in [w] can meet a failure *)
Definition pageRequestFails (w : World) (e : Error) : Prop :=
  nextAnswer w (requestUrl (this w)) = Thrown e.

Definition parsingFails (w : World) (e : Error) : Prop :=
  exists response,
    nextAnswer w (requestUrl (this w)) = Normal response
    /\ body response = Thrown e.

Definition countRequestFails (w : World) (data : list Country.t) (e : Error) : Prop :=
  exists response,
    nextAnswer w (requestUrl (this w)) = Normal response
    /\ body response = Normal (Countries data)
    /\ entriesAmount (document w) <> None
    /\ network w (S (List.length (requests w))) (countUrl (this w)) = Thrown e.

(** ** Sample page and endpoints *)

Module Sample.

Definition euro : Currency.t :=
  {| Currency.code := "EUR"; Currency.name := "Euro"; Currency.symbol := "E" |}.

Definition france : Country.t :=
  {| Country.name := "France"; Country.code := "FR"; Country.capital := "Paris";
     Country.region := "EU"; Country.currency := euro;
     Country.language := {| Language.code := "fr"; Language.name := "French" |};
     Country.flag := "fr.svg"; Country.dialling_code := "+33";
     Country.isoCode := "250" |}.

Definition germany : Country.t :=
  {| Country.name := "Germany"; Country.code := "DE"; Country.capital := "Berlin";
     Country.region := "EU"; Country.currency := euro;
     Country.language := {| Language.code := "de"; Language.name := "German" |};
     Country.flag := "de.svg"; Country.dialling_code := "+49";
     Country.isoCode := "276" |}.

Definition url : string := "http://localhost:3005/countries".

Definition page : Document :=
  {| tbody := Some []; entriesAmount := Some "";
     querySelectorError := fun _ => None |}.

(** An endpoint holding twelve entries *)
Definition twelve : Network :=
  fun _ _ => Normal {| xTotalCount := Some 12; body := Normal (Countries [france; germany]) |}.

(** An endpoint that is down *)
Definition down : Network := fun _ _ => Thrown {| message := "Failed to fetch" |}.

(** An endpoint that answers three requests and is down afterwards *)
Definition flaky : Network :=
  fun n _ =>
    match n with
    | 0%nat | 1%nat => Normal {| xTotalCount := Some 12; body := Normal (Countries [france]) |}
    | 2%nat => Normal {| xTotalCount := Some 12; body := Normal (Countries [germany]) |}
    | _ => Thrown {| message := "Failed to fetch" |}
    end.

Definition start : World := newCountryTable url page twelve.
Definition startDown : World := newCountryTable url page down.
Definition startFlaky : World := newCountryTable url page flaky.

(** After two clicks on the column [name]: sorted by name, descending *)
Definition sortedDesc : World :=
  run (dispatch (ColumnClick (Some "name")))
      (run (dispatch (ColumnClick (Some "name"))) start).

(** On the third and last page of the twelve entries *)
Definition lastPage : World :=
  run (dispatch NextClick) (run (dispatch NextClick) start).

End Sample.

(** ** Vocabulary of the further properties *)

(** The world after a sequence of events, the oldest first *)
Definition runEvents (events : list Event) (w : World) : World :=
  fold_left (fun w e => run (dispatch e) w) events w.

(** The parameter names that the four search inputs filter by *)
Definition isFilterParam (key : string) : Prop :=
  key = "name_like" \/ key = "capital_like"
  \/ key = "currency.name_like" \/ key = "language.name_like".

(** No filter, or one filter as [handleInput] stores it *)
Definition filterStored (self : CountryTable) : Prop :=
  searchParams self = []
  \/ exists key text,
       searchParams self = [(key, text)]
       /\ isFilterParam key /\ Js.trim text = text /\ 2 <= Js.length text.

(** No sort column with the initial direction, or a named column *)
Definition sortStored (self : CountryTable) : Prop :=
  match sortColumn self with
  | None => sortDirection self = asc
  | Some column => column <> ""
  end.

(** The two messages that [getNumberOfEntries] and [fetchData] log *)
Definition knownLog (entry : string * string) : Prop :=
  fst entry = "Error fetching data from API:"
  \/ fst entry = "Error fetching total amount of API entries:".

(** [url] is [origin] followed by a query *)
Definition fromOrigin (origin url : string) : Prop :=
  exists query, url = origin ++ query.

(** Every code unit of [s] satisfies [p] *)
Fixpoint allUnits (p : ascii -> bool) (s : string) : bool :=
  match s with
  | EmptyString => true
  | String c rest => p c && allUnits p rest
  end.

(** The characters the urlencoded serializer can produce: the unreserved
    ones, [+] and [%] *)
Definition isQuerySafe (c : ascii) : bool :=
  let n := Z.of_N (N_of_ascii c) in
  Js.isUrlencodedSafe n || (n =? 43) || (n =? 37).

(** [s] is empty or begins with a code unit that [trim] keeps *)
Definition startsClean (s : string) : Prop :=
  match s with
  | EmptyString => True
  | String c _ => Js.isWhiteSpace c = false
  end.

(** Going from [w] to [w'] kept the base address and the endpoint, logged
    only known messages and asked only the base address. *)
Definition extends (w w' : World) : Prop :=
  apiUrl (this w') = apiUrl (this w)
  /\ network w' = network w
  /\ (exists logs, console w' = (console w ++ logs)%list /\ Forall knownLog logs)
  /\ (exists urls, requests w' = (requests w ++ urls)%list
                   /\ Forall (fromOrigin (apiUrl (this w))) urls).

(** ** The platform functions on a few inputs *)

Example trim_strips_both_ends :
  Js.trim "  fr " = "fr"
  /\ Js.trim (String (ascii_of_nat 160) "f  ") = "f"
  /\ Js.trim "new zealand" = "new zealand"
  /\ Js.trim "   " = "".
Proof. repeat split. Qed.

Example urlencode_filter :
  Js.URLSearchParams_toString [("currency.name_like", "new zealand & co")]
  = "currency.name_like=new+zealand+%26+co".
Proof. reflexivity. Qed.

Example ceilDiv_pages :
  Js.ceilDiv 12 5 = 3 /\ Js.ceilDiv 10 5 = 2 /\ Js.ceilDiv 0 5 = 0 /\ Js.ceilDiv 1 20 = 1.
Proof. repeat split. Qed.

(** ** Running programs: general facts *)

Ltac unfold_prog :=
  unfold run, result, fetchData, getNumberOfEntries, renderData, renderItems,
    setEntriesAmount, tryCatch, throw, bind, ret, getThis, setThis, getDocument,
    setDocument, consoleError, fetch, json, nextAnswer, countUrl in *.

Ltac break_match :=
  match goal with
  | |- context [match ?x with _ => _ end] =>
      lazymatch x with
      | context [match _ with _ => _ end] => fail
      | _ => destruct x eqn:?
      end
  end.

Ltac run_prog := unfold_prog; cbn; repeat (break_match; cbn).

#[local] Arguments requestUrl : simpl never.
#[local] Arguments summaryText : simpl never.
#[local] Arguments String.append : simpl never.

Lemma getNumberOfEntries_eq (w : World) :
  getNumberOfEntries w =
  match nextAnswer w (countUrl (this w)) with
  | Normal response =>
      (Normal (totalCountOf response), requested (countUrl (this w)) w)
  | Thrown e =>
      (Normal 0,
       logged ("Error fetching total amount of API entries:", message e)
              (requested (countUrl (this w)) w))
  end.
Proof. run_prog; reflexivity. Qed.

Lemma getNumberOfEntries_result (w : World) :
  result getNumberOfEntries w = Normal (countAnswer (nextAnswer w (countUrl (this w)))).
Proof.
  unfold result. rewrite getNumberOfEntries_eq.
  destruct (nextAnswer w _); reflexivity.
Qed.

Lemma getNumberOfEntries_this (w : World) :
  this (run getNumberOfEntries w) = this w.
Proof.
  unfold run. rewrite getNumberOfEntries_eq.
  destruct (nextAnswer w _); reflexivity.
Qed.

Lemma getNumberOfEntries_document (w : World) :
  document (run getNumberOfEntries w) = document w.
Proof.
  unfold run. rewrite getNumberOfEntries_eq.
  destruct (nextAnswer w _); reflexivity.
Qed.

Lemma getNumberOfEntries_network (w : World) :
  network (run getNumberOfEntries w) = network w.
Proof.
  unfold run. rewrite getNumberOfEntries_eq.
  destruct (nextAnswer w _); reflexivity.
Qed.

Lemma getNumberOfEntries_requests (w : World) :
  requests (run getNumberOfEntries w) = (requests w ++ [countUrl (this w)])%list.
Proof.
  unfold run. rewrite getNumberOfEntries_eq.
  destruct (nextAnswer w _); reflexivity.
Qed.

(** [fetchData] never throws, never assigns a field, and starts by asking for
    [requestUrl]. *)
Lemma fetchData_result (w : World) : result fetchData w = Normal tt.
Proof. run_prog; reflexivity. Qed.

Lemma fetchData_this (w : World) : this (run fetchData w) = this w.
Proof. run_prog; reflexivity. Qed.

Lemma fetchData_network (w : World) : network (run fetchData w) = network w.
Proof. run_prog; reflexivity. Qed.

Lemma fetchData_requests (w : World) :
  exists later,
    requests (run fetchData w) = (requests w ++ requestUrl (this w) :: later)%list.
Proof.
  run_prog;
    first [ now exists [] | rewrite <- app_assoc; cbn; eexists; reflexivity ].
Qed.

Lemma fetchData_first_request (w : World) :
  nth_error (requests (run fetchData w)) (List.length (requests w))
  = Some (requestUrl (this w)).
Proof.
  destruct (fetchData_requests w) as [later ->].
  rewrite nth_error_app2, Nat.sub_diag by apply Nat.le_refl. reflexivity.
Qed.

Lemma issued_app (w w' : World) (new : list string) :
  requests w' = (requests w ++ new)%list -> issued w w' = new.
Proof.
  intros Hnew. unfold issued.
  rewrite Hnew, skipn_app, skipn_all, Nat.sub_diag. reflexivity.
Qed.

Lemma issued_nothing (w : World) : issued w w = [].
Proof. apply issued_app. now rewrite app_nil_r. Qed.

(** A refresh started once the fields are [self] asks for [requestUrl self]
    first, whatever was requested before it. *)
Lemma fetchData_refreshedAfter (w0 w : World) (before : list string) :
  requests w = (requests w0 ++ before)%list ->
  refreshedAfter (List.length before) w0 (run fetchData w).
Proof.
  intros Hbefore. unfold refreshedAfter.
  destruct (fetchData_requests w) as [later Hlater].
  rewrite (issued_app w0 _ (before ++ requestUrl (this w) :: later)).
  - rewrite nth_error_app2, Nat.sub_diag, fetchData_this by apply Nat.le_refl.
    reflexivity.
  - rewrite Hlater, Hbefore, <- app_assoc. reflexivity.
Qed.

Lemma fetchData_refreshed (w0 w : World) :
  requests w = requests w0 -> refreshedAfter 0 w0 (run fetchData w).
Proof.
  intros Hsame. apply (fetchData_refreshedAfter w0 w []).
  now rewrite app_nil_r.
Qed.

(** ** The fields after each handler *)

Lemma handleSelectChange_run (w : World) (value : Limit) :
  run (handleSelectChange value) w
  = run fetchData (putThis (withCurrentPage 1 (withLimit value (this w))) w).
Proof. reflexivity. Qed.

Lemma handleInput_run (w : World) (index : Z) (value : string) :
  run (handleInput index value) w
  = run fetchData (putThis (withCurrentPage 1 (filtered index value (this w))) w).
Proof.
  unfold handleInput, filtered.
  destruct (2 <=? Js.length (Js.trim value)); [ | reflexivity ].
  destruct index as [ | p | p ]; try reflexivity.
  do 3 (try (destruct p as [p | p | ]; try reflexivity)).
Qed.

Lemma handlePrevButtonClick_run (w : World) :
  run handlePrevButtonClick w
  = if 1 <? currentPage (this w)
    then run fetchData (putThis (withCurrentPage (currentPage (this w) - 1) (this w)) w)
    else w.
Proof.
  unfold handlePrevButtonClick, run, bind, getThis. cbn.
  destruct (1 <? currentPage (this w)); reflexivity.
Qed.

Lemma handleNextButtonClick_run (w : World) :
  let counted := run getNumberOfEntries w in
  let totalEntries := countAnswer (nextAnswer w (countUrl (this w))) in
  let totalPages := Js.ceilDiv totalEntries (limitValue (limit (this w))) in
  run handleNextButtonClick w
  = if currentPage (this w) <? totalPages
    then run fetchData
           (putThis (withCurrentPage (currentPage (this w) + 1) (this w)) counted)
    else counted.
Proof.
  cbv zeta. unfold handleNextButtonClick, run at 1, tryCatch, bind at 1.
  pose proof (getNumberOfEntries_result w) as Hres.
  pose proof (getNumberOfEntries_this w) as Hthis.
  unfold run, result in *.
  destruct (getNumberOfEntries w) as [[n | e] counted]; cbn in *; [ | discriminate ].
  injection Hres as ->. unfold bind, getThis. cbn. rewrite Hthis.
  destruct (currentPage (this w) <? _); [ | reflexivity ].
  cbn. pose proof (fetchData_result (putThis (withCurrentPage (currentPage (this w) + 1) (this w)) counted)) as Hok.
  unfold result in Hok. unfold assign, bind, getThis, setThis. cbn. rewrite Hthis.
  destruct (fetchData _) as [[[] | e] w']; cbn in *; [ reflexivity | discriminate ].
Qed.

Lemma handleSortClick_run (w : World) (column : string) :
  let assigned :=
    putThis
      (withSortColumn (Some column)
         (withSortDirection
            (if strictEq column (sortColumn (this w))
             then flipped (sortDirection (this w)) else asc)
            (this w)))
      w in
  run (handleSortClick column) w
  = match selectorError w column with
    | Some _ => assigned
    | None => run fetchData assigned
    end.
Proof.
  cbv zeta. unfold handleSortClick, selectorError, run, bind, querySelector,
    getDocument, throw, ret, setSortDirection, setSortColumn, assign, getThis,
    setThis. cbn.
  destruct (querySelectorError (document w) (dataColumnSelector column));
    reflexivity.
Qed.

Lemma handleSortClick_this (w : World) (column : string) :
  this (run (handleSortClick column) w)
  = withSortColumn (Some column)
      (withSortDirection
         (if strictEq column (sortColumn (this w))
          then flipped (sortDirection (this w)) else asc)
         (this w)).
Proof.
  rewrite handleSortClick_run.
  destruct (selectorError w column); [ reflexivity | now rewrite fetchData_this ].
Qed.

(** ** Page size *)

(** C6. For each of the allowed page sizes and whatever the fields were,
    [handleSelectChange] stores the size in [limit], sets [currentPage] to 1
    and leaves the other fields alone; it starts a refresh, and the request
    of that refresh is the one for the new fields, whose offset is 0
    ([_start=0] in the URL). *)
Theorem handleSelectChange_resets_page (w : World) (value : Limit) :
  let w' := run (handleSelectChange value) w in
  this w' = withCurrentPage 1 (withLimit value (this w))
  /\ limit (this w') = value
  /\ currentPage (this w') = 1
  /\ refreshedAfter 0 w w'
  /\ offsetOf (this w') = 0
  /\ requestUrl (this w')
     = buildApiUrl (this w')
         (apiUrl (this w) ++ "?_limit=" ++ Js.toString (limitValue value) ++ "&_start=0").
Proof.
  cbv zeta. rewrite handleSelectChange_run, fetchData_this.
  repeat split. now apply fetchData_refreshed.
Qed.

(** ** Previous page *)

(** C7. At a page of 1 or less [handlePrevButtonClick] changes nothing at
    all: the world is the same, so no request is made. At any page above 1
    it lowers [currentPage] by exactly 1, leaves every other field as it
    was, and starts a refresh. *)
Theorem handlePrevButtonClick_frame (w : World) :
  let w' := run handlePrevButtonClick w in
  (currentPage (this w) <= 1 -> w' = w /\ issued w w' = [])
  /\ (1 < currentPage (this w) ->
      this w' = withCurrentPage (currentPage (this w) - 1) (this w)
      /\ refreshedAfter 0 w w').
Proof.
  cbv zeta. rewrite handlePrevButtonClick_run.
  destruct (Z.ltb_spec 1 (currentPage (this w))) as [Hgt | Hle]; split; intros Hpage;
    try lia.
  - rewrite fetchData_this. split; [ reflexivity | now apply fetchData_refreshed ].
  - split; [ reflexivity | apply issued_nothing ].
Qed.

Lemma handlePrevButtonClick_frame_witness :
  run handlePrevButtonClick Sample.start = Sample.start
  /\ currentPage (this (run handlePrevButtonClick Sample.lastPage)) = 2.
Proof.
  split.
  - apply (handlePrevButtonClick_frame Sample.start). vm_compute. discriminate.
  - destruct (handlePrevButtonClick_frame Sample.lastPage) as [_ Hdown].
    destruct Hdown as [Hthis _]; [ reflexivity | ].
    rewrite Hthis. reflexivity.
Defined.

(** ** Search inputs *)

(** C3. For each of the four search inputs, whatever filter was set before
    and whatever the text of the input: when the trimmed text has at least 2
    characters, [searchParams] becomes exactly the one pair of the input's
    field and the trimmed text; when it has fewer than 2, [searchParams]
    becomes empty. Either way at most one filter is set afterwards,
    [currentPage] is 1, the other fields are as before, and a refresh of the
    new fields is started. *)
Theorem handleInput_sets_filter (w : World) (index : Z) (value : string) :
  1 <= index <= 4 ->
  let text := Js.trim value in
  let w' := run (handleInput index value) w in
  (2 <= Js.length text -> searchParams (this w') = [(filterParam index, text)])
  /\ (Js.length text < 2 -> searchParams (this w') = [])
  /\ (List.length (searchParams (this w')) <= 1)%nat
  /\ this w' = withCurrentPage 1 (withSearchParams (searchParams (this w')) (this w))
  /\ currentPage (this w') = 1
  /\ refreshedAfter 0 w w'.
Proof.
  intros Hindex. cbv zeta. rewrite handleInput_run, fetchData_this.
  unfold filtered.
  replace ((1 <=? index) && (index <=? 4)) with true
    by (symmetry; apply andb_true_iff; split; apply Z.leb_le; lia).
  destruct (Z.leb_spec 2 (Js.length (Js.trim value))) as [Hlong | Hshort];
    cbn [this putThis searchParams withCurrentPage withSearchParams currentPage];
    repeat split; try lia; try reflexivity; try (cbn; lia);
    now apply fetchData_refreshed.
Qed.

Lemma handleInput_sets_filter_witness :
  searchParams (this (run (handleInput 1 "  fr ") Sample.start)) = [("name_like", "fr")]
  /\ searchParams (this (run (handleInput 1 "f")
                           (run (handleInput 1 "  fr ") Sample.start))) = [].
Proof.
  split.
  - apply (handleInput_sets_filter Sample.start 1 "  fr "); [ lia | ].
    vm_compute. discriminate.
  - apply (handleInput_sets_filter (run (handleInput 1 "  fr ") Sample.start) 1 "f");
      [ lia | ].
    reflexivity.
Defined.

(** ** Sorting *)

(** C4, as the code has it. A click on the column that is the current
    [sortColumn] flips [sortDirection], so two such clicks in a row bring
    the direction back to what it was before them (to ascending when it was
    ascending). A click on any other column makes it the [sortColumn] with
    direction ascending. In every case the click leaves [currentPage] and
    the other fields unchanged. It starts a refresh when the selector of
    the column parses; when [document.querySelector] throws on it, the
    fields are assigned all the same, the exception leaves the handler and
    no request is made. *)
Theorem handleSortClick_toggles (w : World) (column : string) :
  let w1 := run (handleSortClick column) w in
  let w2 := run (handleSortClick column) w1 in
  (sortColumn (this w) = Some column ->
     sortColumn (this w1) = Some column
     /\ sortDirection (this w1) = flipped (sortDirection (this w))
     /\ sortDirection (this w2) = sortDirection (this w)
     /\ (sortDirection (this w) = asc -> sortDirection (this w2) = asc))
  /\ (sortColumn (this w) <> Some column ->
        sortColumn (this w1) = Some column /\ sortDirection (this w1) = asc)
  /\ currentPage (this w1) = currentPage (this w)
  /\ limit (this w1) = limit (this w)
  /\ searchParams (this w1) = searchParams (this w)
  /\ apiUrl (this w1) = apiUrl (this w)
  /\ (selectorError w column = None ->
        result (handleSortClick column) w = Normal tt /\ refreshedAfter 0 w w1)
  /\ (forall e, selectorError w column = Some e ->
        result (handleSortClick column) w = Thrown e /\ issued w w1 = []).
Proof.
  cbv zeta. rewrite !handleSortClick_this.
  cbn [this putThis sortColumn sortDirection withSortColumn withSortDirection
       currentPage limit searchParams apiUrl strictEq].
  rewrite String.eqb_refl.
  split; [ | split; [ | repeat (split; [ reflexivity | ]); split ] ].
  - intros Hcurrent. rewrite Hcurrent. cbn [strictEq].
    rewrite String.eqb_refl.
    destruct (sortDirection (this w)); repeat split; intros; congruence.
  - intros Hother. split; [ reflexivity | ].
    destruct (sortColumn (this w)) as [current | ]; [ | reflexivity ].
    cbn [strictEq].
    destruct (String.eqb_spec column current) as [-> | _];
      [ now contradiction Hother | reflexivity ].
  - intros Hparses. split.
    + unfold result, handleSortClick, bind, querySelector, getDocument, ret,
        setSortDirection, setSortColumn, assign, getThis, setThis. cbn.
      unfold selectorError in Hparses. rewrite Hparses.
      match goal with
      | |- context [fetchData ?assigned] =>
          pose proof (fetchData_result assigned) as Hok; unfold result in Hok;
          destruct (fetchData assigned) as [[[] | e] w']
      end; cbn in *; [ reflexivity | discriminate ].
    + rewrite handleSortClick_run, Hparses. now apply fetchData_refreshed.
  - intros e Hbreaks. split.
    + unfold result, handleSortClick, bind, querySelector, getDocument, throw,
        setSortDirection, setSortColumn, assign, getThis, setThis. cbn.
      unfold selectorError in Hbreaks. rewrite Hbreaks. reflexivity.
    + rewrite handleSortClick_run, Hbreaks. apply issued_app.
      cbn. now rewrite app_nil_r.
Qed.

Lemma handleSortClick_toggles_witness :
  sortDirection (this (run (handleSortClick "name") Sample.sortedDesc)) = asc
  /\ sortDirection (this (run (handleSortClick "capital") Sample.sortedDesc)) = asc.
Proof.
  split.
  - destruct (handleSortClick_toggles Sample.sortedDesc "name") as [Hsame _].
    destruct Hsame as (_ & Hflip & _); [ reflexivity | ].
    rewrite Hflip. reflexivity.
  - apply (handleSortClick_toggles Sample.sortedDesc "capital").
    vm_compute. discriminate.
Defined.

(** C4 as stated fails: in a reachable world sorted by [name], descending,
    two clicks on [name] leave the direction descending, not ascending. *)
Lemma handleSortClick_twice_not_ascending :
  reachable Sample.sortedDesc
  /\ sortColumn (this Sample.sortedDesc) = Some "name"
  /\ sortDirection
       (this (run (handleSortClick "name")
                (run (handleSortClick "name") Sample.sortedDesc))) <> asc.
Proof.
  split; [ | split ].
  - apply reachable_event, reachable_event, reachable_new.
  - reflexivity.
  - vm_compute. discriminate.
Qed.

(** ** Next page *)

(** [Js.ceilDiv a b] is the least integer that is at least [a / b]. *)
Lemma ceilDiv_spec (a b : Z) :
  0 < b -> (Js.ceilDiv a b - 1) * b < a <= Js.ceilDiv a b * b.
Proof.
  intros Hb. unfold Js.ceilDiv.
  pose proof (Z.div_mod (- a) b) as Hdiv.
  pose proof (Z.mod_pos_bound (- a) b Hb) as Hmod.
  nia.
Qed.

Lemma limitValue_positive (l : Limit) : 0 < limitValue l.
Proof. destruct l; reflexivity. Qed.

Lemma handleNextButtonClick_this (w : World) :
  this (run handleNextButtonClick w)
  = if currentPage (this w)
         <? Js.ceilDiv (countAnswer (nextAnswer w (countUrl (this w))))
                       (limitValue (limit (this w)))
    then withCurrentPage (currentPage (this w) + 1) (this w)
    else this w.
Proof.
  rewrite handleNextButtonClick_run.
  destruct (currentPage (this w) <? _).
  - now rewrite fetchData_this.
  - apply getNumberOfEntries_this.
Qed.

Lemma handleNextButtonClick_network (w : World) :
  network (run handleNextButtonClick w) = network w.
Proof.
  rewrite handleNextButtonClick_run.
  destruct (currentPage (this w) <? _).
  - rewrite fetchData_network. apply getNumberOfEntries_network.
  - apply getNumberOfEntries_network.
Qed.

(** One click against an endpoint that always reports twelve entries, five
    to a page *)
Lemma handleNextButtonClick_twelve (w : World) :
  limit (this w) = L5 ->
  (forall n, countAnswer (network w n (countUrl (this w))) = 12) ->
  let w' := run handleNextButtonClick w in
  this w' = (if currentPage (this w) <? 3
             then withCurrentPage (currentPage (this w) + 1) (this w)
             else this w)
  /\ limit (this w') = L5
  /\ (forall n, countAnswer (network w' n (countUrl (this w'))) = 12).
Proof.
  intros Hlimit Hcount. cbv zeta.
  rewrite handleNextButtonClick_network, handleNextButtonClick_this.
  unfold nextAnswer. rewrite Hcount, Hlimit.
  change (Js.ceilDiv 12 (limitValue L5)) with 3.
  destruct (currentPage (this w) <? 3); auto.
Qed.

(** C1. [handleNextButtonClick] takes the count that [getNumberOfEntries]
    returns and computes totalPages as the ceiling of count / pageSize.
    When [currentPage] is at or beyond totalPages the fields and the page
    are left as they are and only the count request is made; otherwise
    [currentPage] goes up by exactly 1 and nothing else changes. So the page
    after the click is never above the larger of the page before it and
    totalPages. With five entries to a page and a count of twelve, clicks
    from page 1 lead to page 2 (offset 5), then page 3 (offset 10), and the
    next click stays on page 3. *)
Theorem handleNextButtonClick_bounded (w : World) :
  let pageSize := limitValue (limit (this w)) in
  let totalCount := countAnswer (nextAnswer w (countUrl (this w))) in
  let totalPages := Js.ceilDiv totalCount pageSize in
  let w' := run handleNextButtonClick w in
  result getNumberOfEntries w = Normal totalCount
  /\ (totalPages - 1) * pageSize < totalCount <= totalPages * pageSize
  /\ (totalPages <= currentPage (this w) ->
        this w' = this w /\ document w' = document w
        /\ issued w w' = [countUrl (this w)])
  /\ (currentPage (this w) < totalPages ->
        this w' = withCurrentPage (currentPage (this w) + 1) (this w)
        /\ refreshedAfter 1 w w')
  /\ currentPage (this w') <= Z.max (currentPage (this w)) totalPages
  /\ (limit (this w) = L5 -> currentPage (this w) = 1 ->
      (forall n, countAnswer (network w n (countUrl (this w))) = 12) ->
      let w1 := w' in
      let w2 := run handleNextButtonClick w1 in
      let w3 := run handleNextButtonClick w2 in
      currentPage (this w1) = 2 /\ offsetOf (this w1) = 5
      /\ currentPage (this w2) = 3 /\ offsetOf (this w2) = 10
      /\ this w3 = this w2).
Proof.
  cbv zeta.
  split; [ apply getNumberOfEntries_result | ].
  split; [ apply ceilDiv_spec, limitValue_positive | ].
  split; [ | split; [ | split ] ].
  - intros Hlast. rewrite handleNextButtonClick_run.
    destruct (Z.ltb_spec (currentPage (this w))
                (Js.ceilDiv (countAnswer (nextAnswer w (countUrl (this w))))
                            (limitValue (limit (this w))))) as [Hlt | _];
      [ lia | ].
    split; [ apply getNumberOfEntries_this | ].
    split; [ apply getNumberOfEntries_document | ].
    apply issued_app, getNumberOfEntries_requests.
  - intros Hmore. rewrite handleNextButtonClick_run.
    destruct (Z.ltb_spec (currentPage (this w))
                (Js.ceilDiv (countAnswer (nextAnswer w (countUrl (this w))))
                            (limitValue (limit (this w))))) as [_ | Hge];
      [ | lia ].
    split; [ now rewrite fetchData_this | ].
    apply (fetchData_refreshedAfter w _ [countUrl (this w)]).
    apply getNumberOfEntries_requests.
  - rewrite handleNextButtonClick_this.
    destruct (Z.ltb_spec (currentPage (this w))
                (Js.ceilDiv (countAnswer (nextAnswer w (countUrl (this w))))
                            (limitValue (limit (this w))))) as [Hlt | Hge];
      cbn [currentPage withCurrentPage]; lia.
  - intros Hlimit Hpage Hcount.
    destruct (handleNextButtonClick_twelve w Hlimit Hcount) as (H1 & Hlimit1 & Hcount1).
    destruct (handleNextButtonClick_twelve _ Hlimit1 Hcount1) as (H2 & Hlimit2 & Hcount2).
    destruct (handleNextButtonClick_twelve _ Hlimit2 Hcount2) as (H3 & _ & _).
    rewrite Hpage in H1. cbn in H1.
    rewrite H1 in H2. cbn in H2.
    rewrite H2 in H3. cbn in H3.
    rewrite H3, H2, H1. unfold offsetOf. cbn. rewrite Hlimit.
    repeat split.
Qed.

Lemma handleNextButtonClick_bounded_witness :
  currentPage (this (run handleNextButtonClick Sample.start)) = 2
  /\ currentPage (this (run handleNextButtonClick Sample.lastPage)) = 3.
Proof.
  split.
  - apply (handleNextButtonClick_bounded Sample.start);
      [ reflexivity | reflexivity | intros n; reflexivity ].
  - destruct (handleNextButtonClick_bounded Sample.lastPage) as (_ & _ & Hstay & _).
    destruct Hstay as (Hthis & _); [ vm_compute; discriminate | ].
    rewrite Hthis. reflexivity.
Defined.

(** C9. When the count request fails, [getNumberOfEntries] catches the
    error, logs it and returns 0. A click on the next button whose count
    request fails therefore computes a totalPages of 0 and, from any page of
    1 or more, does not advance: the fields are unchanged and nothing is
    requested after the count. For the fields it is the same as an endpoint
    that reports a count of 0. *)
Theorem count_failure_reads_as_zero (w : World) (e : Error) :
  nextAnswer w (countUrl (this w)) = Thrown e ->
  result getNumberOfEntries w = Normal 0
  /\ console (run getNumberOfEntries w)
     = (console w
        ++ [("Error fetching total amount of API entries:", message e)])%list
  /\ Js.ceilDiv 0 (limitValue (limit (this w))) = 0
  /\ (1 <= currentPage (this w) ->
        this (run handleNextButtonClick w) = this w
        /\ issued w (run handleNextButtonClick w) = [countUrl (this w)])
  /\ (forall w0 response,
        this w0 = this w ->
        nextAnswer w0 (countUrl (this w0)) = Normal response ->
        totalCountOf response = 0 ->
        this (run handleNextButtonClick w0) = this (run handleNextButtonClick w)).
Proof.
  intros Hfail.
  assert (Hzero : Js.ceilDiv 0 (limitValue (limit (this w))) = 0)
    by (destruct (limit (this w)); reflexivity).
  split; [ rewrite getNumberOfEntries_result, Hfail; reflexivity | ].
  split; [ unfold run; rewrite getNumberOfEntries_eq, Hfail; reflexivity | ].
  split; [ exact Hzero | ].
  split.
  - intros Hpage. rewrite handleNextButtonClick_run, Hfail.
    cbn [countAnswer]. rewrite Hzero.
    destruct (Z.ltb_spec (currentPage (this w)) 0) as [Hneg | _]; [ lia | ].
    split; [ apply getNumberOfEntries_this | ].
    apply issued_app, getNumberOfEntries_requests.
  - intros w0 response Hsame Hanswer Hcount.
    rewrite !handleNextButtonClick_this, Hanswer, Hfail, Hsame.
    cbn [countAnswer]. rewrite Hcount. reflexivity.
Qed.

Lemma count_failure_reads_as_zero_witness :
  result getNumberOfEntries Sample.startDown = Normal 0
  /\ this (run handleNextButtonClick Sample.startDown) = this Sample.startDown.
Proof.
  destruct (count_failure_reads_as_zero
              Sample.startDown {| message := "Failed to fetch" |})
    as (Hzero & _ & _ & Hstay & _); [ reflexivity | ].
  split; [ exact Hzero | ].
  apply Hstay. vm_compute. discriminate.
Defined.

(** ** The invariant of the fields *)

Lemma newCountryTable_wellFormed (url : string) (doc : Document) (net : Network) :
  wellFormed (this (newCountryTable url doc net)).
Proof.
  unfold newCountryTable. rewrite fetchData_this.
  split; cbn; [ lia | lia | discriminate ].
Qed.

Lemma filtered_wellFormed (index : Z) (value : string) (self : CountryTable) :
  wellFormed self -> wellFormed (withCurrentPage 1 (filtered index value self)).
Proof.
  intros [Hpage Hfilter Hsort]. unfold filtered.
  destruct (2 <=? _); [ destruct (_ && _) | ]; split; cbn; auto; lia.
Qed.

Lemma dispatch_wellFormed (w : World) (e : Event) :
  wellFormed (this w) -> wellFormed (this (run (dispatch e) w)).
Proof.
  intros Hwf. pose proof Hwf as [Hpage Hfilter Hsort].
  destruct e as [value | index value | | | [column | ]]; cbn [dispatch].
  - rewrite handleSelectChange_run, fetchData_this. split; cbn; auto; lia.
  - destruct (_ && _); [ | exact Hwf ].
    rewrite handleInput_run, fetchData_this. now apply filtered_wellFormed.
  - rewrite handlePrevButtonClick_run.
    destruct (Z.ltb_spec 1 (currentPage (this w))); [ | exact Hwf ].
    rewrite fetchData_this. split; cbn; auto; lia.
  - rewrite handleNextButtonClick_this.
    destruct (_ <? _); [ | exact Hwf ].
    split; cbn; auto; lia.
  - destruct (truthy (Some column)) eqn:Hnamed; [ | exact Hwf ].
    rewrite handleSortClick_this.
    split; cbn; auto.
    intros Hempty. injection Hempty as ->. discriminate Hnamed.
  - exact Hwf.
Qed.

Lemma reachable_wellFormed (w : World) : reachable w -> wellFormed (this w).
Proof.
  induction 1 as [url doc net | w e _ IH].
  - apply newCountryTable_wellFormed.
  - now apply dispatch_wellFormed.
Qed.

(** C8. [currentPage] is 1 when the object is created, and each handler
    keeps it at 1 or more: the select and the search inputs set it to 1, the
    previous button lowers it only from above 1, the next button only
    raises it, and sorting leaves it alone. Hence every world the page can
    reach has [currentPage] at least 1. *)
Theorem currentPage_at_least_one :
  (forall url, currentPage (initialFields url) = 1)
  /\ (forall w value, currentPage (this (run (handleSelectChange value) w)) = 1)
  /\ (forall w index value, currentPage (this (run (handleInput index value) w)) = 1)
  /\ (forall w, 1 <= currentPage (this w) ->
                1 <= currentPage (this (run handlePrevButtonClick w)))
  /\ (forall w, 1 <= currentPage (this w) ->
                1 <= currentPage (this (run handleNextButtonClick w)))
  /\ (forall w column, 1 <= currentPage (this w) ->
                       1 <= currentPage (this (run (handleSortClick column) w)))
  /\ (forall w, reachable w -> 1 <= currentPage (this w)).
Proof.
  split; [ reflexivity | ].
  split; [ intros; now rewrite handleSelectChange_run, fetchData_this | ].
  split; [ intros; now rewrite handleInput_run, fetchData_this | ].
  split.
  { intros w Hpage. rewrite handlePrevButtonClick_run.
    destruct (Z.ltb_spec 1 (currentPage (this w))); [ | exact Hpage ].
    rewrite fetchData_this. cbn. lia. }
  split.
  { intros w Hpage. rewrite handleNextButtonClick_this.
    destruct (_ <? _); cbn; lia. }
  split.
  { intros w column Hpage. now rewrite handleSortClick_this. }
  intros w Hreach. apply reachable_wellFormed, Hreach.
Qed.

Lemma currentPage_at_least_one_witness :
  reachable Sample.lastPage /\ 1 <= currentPage (this Sample.lastPage).
Proof.
  assert (Hreach : reachable Sample.lastPage)
    by apply reachable_event, reachable_event, reachable_new.
  split; [ exact Hreach | ].
  apply currentPage_at_least_one, Hreach.
Defined.

(** ** Refresh *)

Lemma append_assoc (a b c : string) : (a ++ b) ++ c = a ++ (b ++ c).
Proof.
  induction a as [ | ch a IH]; [ reflexivity | ].
  change (String ch ((a ++ b) ++ c) = String ch (a ++ (b ++ c))).
  now rewrite IH.
Qed.

Lemma append_empty_r (a : string) : a ++ "" = a.
Proof.
  induction a as [ | ch a IH]; [ reflexivity | ].
  change (String ch (a ++ "") = String ch a).
  now rewrite IH.
Qed.

(** The URL built by [fetchData] and [buildApiUrl] is the base address
    followed by the query of the specification. *)
Lemma requestUrl_queryString (self : CountryTable) :
  (List.length (searchParams self) <= 1)%nat ->
  sortColumn self <> Some "" ->
  requestUrl self = apiUrl self ++ queryString (queryOf self).
Proof.
  intros Hfilter Hsort.
  unfold requestUrl, buildApiUrl, queryString, queryOf, offsetOf.
  cbn [qLimit qStart qFilter qSort].
  destruct (searchParams self) as [ | [field text] [ | second others]];
    [ | | cbn in Hfilter; lia ];
    (destruct (sortColumn self) as [[ | ch column] | ];
     [ now contradiction Hsort | | ]);
    cbn [hasKeys truthy interpolate directionString andb hd_error
         Js.URLSearchParams_toString map String.concat fst snd];
    destruct (sortDirection self); cbn [truthy directionString];
    rewrite ?append_assoc, ?append_empty_r; reflexivity.
Qed.

(** C5. Every refresh computes the offset as (page - 1) * pageSize and
    first asks for the base address followed by a query made of exactly:
    limit = pageSize, start = that offset, the one filter pair when a
    filter is set, and the sort column with the sort direction when a sort
    column is set. The fields here are those the event listeners can
    produce (at most one filter, no empty column name). The URL depends on
    nothing else: two worlds with the same base address and the same query
    ask for the same URL. *)
Theorem fetchData_query (w : World) :
  (List.length (searchParams (this w)) <= 1)%nat ->
  sortColumn (this w) <> Some "" ->
  let self := this w in
  offsetOf self = (currentPage self - 1) * limitValue (limit self)
  /\ queryOf self
     = {| qLimit := limitValue (limit self);
          qStart := offsetOf self;
          qFilter := match searchParams self with
                     | [] => None
                     | first :: _ => Some first
                     end;
          qSort := match sortColumn self with
                   | Some column => Some (column, sortDirection self)
                   | None => None
                   end |}
  /\ nth_error (requests (run fetchData w)) (List.length (requests w))
     = Some (apiUrl self ++ queryString (queryOf self))
  /\ (forall w2,
        (List.length (searchParams (this w2)) <= 1)%nat ->
        sortColumn (this w2) <> Some "" ->
        apiUrl (this w2) = apiUrl self ->
        queryOf (this w2) = queryOf self ->
        nth_error (requests (run fetchData w2)) (List.length (requests w2))
        = nth_error (requests (run fetchData w)) (List.length (requests w))).
Proof.
  intros Hfilter Hsort. cbv zeta.
  split; [ reflexivity | ].
  split; [ unfold queryOf; now destruct (searchParams (this w)) | ].
  split.
  - rewrite fetchData_first_request. f_equal.
    now apply requestUrl_queryString.
  - intros w2 Hfilter2 Hsort2 Hbase Hquery.
    rewrite !fetchData_first_request. f_equal.
    rewrite !requestUrl_queryString by assumption.
    now rewrite Hbase, Hquery.
Qed.

Lemma fetchData_query_witness :
  nth_error (requests (run fetchData Sample.sortedDesc))
            (List.length (requests Sample.sortedDesc))
  = Some "http://localhost:3005/countries?_limit=5&_start=0&_sort=name&_order=desc".
Proof.
  destruct (fetchData_query Sample.sortedDesc) as (_ & _ & Hurl & _).
  - vm_compute. lia.
  - vm_compute. discriminate.
  - rewrite Hurl. reflexivity.
Defined.

Lemma rendered_rows (countries : list Country.t) (rows : list Row) :
  fold_left (fun rows country => (rows ++ [renderRow country])%list) countries rows
  = (rows ++ map renderRow countries)%list.
Proof.
  revert rows. induction countries as [ | country countries IH]; intros rows; cbn.
  - now rewrite app_nil_r.
  - now rewrite IH, <- app_assoc.
Qed.

(** C10. When the page request of a refresh succeeds and the summary
    element exists, the summary written is exactly
    "Showing (offset+1) to (offset+pageSize) of totalCount Entries", with
    totalCount the number returned by the count request that follows. The
    upper bound is offset + pageSize whatever the items of the page are, so
    it can be larger than totalCount: on the third page of twelve entries,
    five to a page, the summary reads "Showing 11 to 15 of 12 Entries". *)
Theorem fetchData_summary :
  (forall (w : World) (response : Response) (data : list Country.t),
      nextAnswer w (requestUrl (this w)) = Normal response ->
      body response = Normal (Countries data) ->
      entriesAmount (document w) <> None ->
      let offset := offsetOf (this w) in
      let pageSize := limitValue (limit (this w)) in
      let totalCount :=
        countAnswer (network w (S (List.length (requests w))) (countUrl (this w))) in
      entriesAmount (document (run fetchData w))
      = Some ("Showing " ++ Js.toString (offset + 1)
              ++ " to " ++ Js.toString (offset + pageSize)
              ++ " of " ++ Js.toString totalCount ++ " Entries"))
  /\ (reachable Sample.lastPage
      /\ currentPage (this Sample.lastPage) = 3
      /\ entriesAmount (document Sample.lastPage)
         = Some "Showing 11 to 15 of 12 Entries").
Proof.
  split.
  - intros w response data Hanswer Hbody Hspan. cbv zeta.
    unfold nextAnswer in Hanswer. unfold_prog. cbn.
    rewrite Hanswer. cbn. rewrite Hbody. cbn.
    destruct (tbody (document w)); cbn;
      (destruct (entriesAmount (document w)); [ | contradiction ]); cbn;
      rewrite length_app, Nat.add_1_r;
      destruct (network w (S _) _); reflexivity.
  - split; [ apply reachable_event, reachable_event, reachable_new | ].
    split; reflexivity.
Qed.

Lemma fetchData_summary_witness :
  entriesAmount (document (run fetchData Sample.start))
  = Some "Showing 1 to 5 of 12 Entries".
Proof.
  destruct fetchData_summary as [Hsummary _].
  rewrite (Hsummary Sample.start
             {| xTotalCount := Some 12;
                body := Normal (Countries [Sample.france; Sample.germany]) |}
             [Sample.france; Sample.germany]).
  - reflexivity.
  - reflexivity.
  - reflexivity.
  - vm_compute. discriminate.
Defined.

(** C2, as the code has it. A refresh never throws and never assigns a
    field. When its page request fails, or the body of the answer does not
    parse, the error is caught and logged once, the rows and the summary
    stay as they were, and nothing more is requested. When the page request
    succeeds but the count request after it fails, that error is caught and
    logged inside [getNumberOfEntries], which returns 0: by then the rows
    have been replaced by those of the new page, and the summary is written
    with a total of 0. Nothing is retried in either case. *)
Theorem fetchData_failure (w : World) (e : Error) :
  let w' := run fetchData w in
  result fetchData w = Normal tt
  /\ this w' = this w
  /\ (pageRequestFails w e \/ parsingFails w e ->
        console w' = (console w ++ [("Error fetching data from API:", message e)])%list
        /\ document w' = document w
        /\ issued w w' = [requestUrl (this w)])
  /\ (forall data, countRequestFails w data e ->
        console w'
        = (console w
           ++ [("Error fetching total amount of API entries:", message e)])%list
        /\ tbody (document w')
           = match tbody (document w) with
             | Some _ => Some (map renderRow data)
             | None => None
             end
        /\ entriesAmount (document w')
           = Some (summaryText (offsetOf (this w)) (limitValue (limit (this w))) 0)
        /\ issued w w' = [requestUrl (this w); countUrl (this w)]).
Proof.
  cbv zeta.
  split; [ apply fetchData_result | ].
  split; [ apply fetchData_this | ].
  split.
  - intros [Hpage | (response & Hanswer & Hbody)].
    + unfold pageRequestFails, nextAnswer in Hpage.
      assert (Hrun : run fetchData w
                     = logged ("Error fetching data from API:", message e)
                              (requested (requestUrl (this w)) w))
        by (unfold_prog; cbn; rewrite Hpage; reflexivity).
      rewrite Hrun. repeat split. now apply issued_app.
    + unfold nextAnswer in Hanswer.
      assert (Hrun : run fetchData w
                     = logged ("Error fetching data from API:", message e)
                              (requested (requestUrl (this w)) w))
        by (unfold_prog; cbn; rewrite Hanswer; cbn; rewrite Hbody; reflexivity).
      rewrite Hrun. repeat split. now apply issued_app.
  - intros data (response & Hanswer & Hbody & Hspan & Hcount).
    unfold nextAnswer in Hanswer.
    assert (Hrun : run fetchData w
                   = putDocument
                       {| tbody := match tbody (document w) with
                                   | Some _ => Some (map renderRow data)
                                   | None => None
                                   end;
                          entriesAmount :=
                            Some (summaryText (offsetOf (this w))
                                              (limitValue (limit (this w))) 0);
                          querySelectorError := querySelectorError (document w) |}
                       (logged ("Error fetching total amount of API entries:",
                                message e)
                          (requested (countUrl (this w))
                             (requested (requestUrl (this w)) w)))).
    { unfold_prog. cbn. rewrite Hanswer. cbn. rewrite Hbody. cbn.
      destruct (tbody (document w)) eqn:Hrows; cbn;
        (destruct (entriesAmount (document w)); [ | contradiction ]); cbn;
        rewrite length_app, Nat.add_1_r, Hcount; cbn;
        rewrite ?rendered_rows, ?Hrows; reflexivity. }
    rewrite Hrun. repeat split.
    apply issued_app. cbn. now rewrite <- app_assoc.
Qed.

Lemma fetchData_failure_witness :
  document (run fetchData Sample.startDown) = document Sample.startDown
  /\ entriesAmount (document (run fetchData Sample.startFlaky))
     = Some (summaryText 0 5 0).
Proof.
  split.
  - apply (fetchData_failure Sample.startDown {| message := "Failed to fetch" |}).
    left. reflexivity.
  - apply (fetchData_failure Sample.startFlaky {| message := "Failed to fetch" |})
      with (data := [Sample.germany]).
    exists {| xTotalCount := Some 12; body := Normal (Countries [Sample.germany]) |}.
    repeat split. vm_compute. discriminate.
Defined.

(** C2 as stated fails: in a reachable world showing France and a total of
    twelve, a refresh whose count request fails replaces the row and
    rewrites the summary with a total of 0. *)
Lemma fetchData_count_failure_changes_view :
  reachable Sample.startFlaky
  /\ countRequestFails Sample.startFlaky [Sample.germany]
       {| message := "Failed to fetch" |}
  /\ document Sample.startFlaky
     = {| tbody := Some [renderRow Sample.france];
          entriesAmount := Some "Showing 1 to 5 of 12 Entries";
          querySelectorError := querySelectorError Sample.page |}
  /\ document (run fetchData Sample.startFlaky)
     = {| tbody := Some [renderRow Sample.germany];
          entriesAmount := Some "Showing 1 to 5 of 0 Entries";
          querySelectorError := querySelectorError Sample.page |}
  /\ document (run fetchData Sample.startFlaky) <> document Sample.startFlaky.
Proof.
  split; [ apply reachable_new | ].
  split.
  { exists {| xTotalCount := Some 12; body := Normal (Countries [Sample.germany]) |}.
    repeat split. vm_compute. discriminate. }
  split; [ reflexivity | ].
  split; [ reflexivity | ].
  vm_compute. discriminate.
Qed.

(** * Further properties of the class *)

(** ** [renderItems] *)

(** X1. [renderItems] is a full replace. It returns normally and touches
    nothing but the rows: where the page has a [tbody] the rows become one
    row per country of the array, in the order of the array (none for the
    empty array), whatever was shown before, so rendering after an earlier
    render gives the same world as rendering alone; where there is no
    [tbody] the world is unchanged. *)
Theorem renderItems_full_replace
        (w : World) (countries previous : list Country.t) :
  let w' := run (renderItems countries) w in
  result (renderItems countries) w = Normal tt
  /\ this w' = this w /\ console w' = console w /\ requests w' = requests w
  /\ entriesAmount (document w') = entriesAmount (document w)
  /\ (tbody (document w) = None -> w' = w)
  /\ (tbody (document w) <> None ->
        tbody (document w') = Some (map renderRow countries)
        /\ (countries = [] -> tbody (document w') = Some []))
  /\ run (renderItems countries) (run (renderItems previous) w) = w'.
Proof.
  cbv zeta. unfold renderItems, run, result, bind, getDocument, setDocument, ret.
  cbn. destruct (tbody (document w)) as [rows | ] eqn:Hrows; cbn.
  - rewrite rendered_rows. cbn.
    repeat split; try congruence.
    intros ->. reflexivity.
  - rewrite Hrows. cbn. repeat split; congruence.
Qed.

Lemma renderItems_full_replace_witness :
  tbody (document (run (renderItems [Sample.germany]) Sample.start))
  = Some [renderRow Sample.germany]
  /\ run (renderItems [])
         {| this := initialFields Sample.url;
            document := {| tbody := None; entriesAmount := None;
                           querySelectorError := fun _ => None |};
            console := []; network := Sample.down; requests := [] |}
     = {| this := initialFields Sample.url;
          document := {| tbody := None; entriesAmount := None;
                           querySelectorError := fun _ => None |};
          console := []; network := Sample.down; requests := [] |}.
Proof.
  split.
  - apply (renderItems_full_replace Sample.start [Sample.germany] []).
    vm_compute. discriminate.
  - apply (renderItems_full_replace
             {| this := initialFields Sample.url;
                document := {| tbody := None; entriesAmount := None;
                           querySelectorError := fun _ => None |};
                console := []; network := Sample.down; requests := [] |} [] []);
      reflexivity.
Defined.

(** ** [getNumberOfEntries] *)

(** X2. [getNumberOfEntries] never throws and changes neither the fields
    nor the page. It makes exactly one request, for the base address with
    [?_limit=1] and nothing else, whatever the filter, the sort and the
    page are. An answer is read without logging; an error is logged once. *)
Theorem getNumberOfEntries_frame (w : World) :
  let w' := run getNumberOfEntries w in
  (exists n, result getNumberOfEntries w = Normal n)
  /\ this w' = this w
  /\ document w' = document w
  /\ issued w w' = [apiUrl (this w) ++ "?_limit=1"]
  /\ (forall response,
        nextAnswer w (countUrl (this w)) = Normal response -> console w' = console w)
  /\ (forall e,
        nextAnswer w (countUrl (this w)) = Thrown e ->
        List.length (console w') = S (List.length (console w))).
Proof.
  cbv zeta.
  split; [ eexists; apply getNumberOfEntries_result | ].
  split; [ apply getNumberOfEntries_this | ].
  split; [ apply getNumberOfEntries_document | ].
  split; [ apply issued_app, getNumberOfEntries_requests | ].
  unfold run. rewrite getNumberOfEntries_eq.
  split.
  - intros response ->. reflexivity.
  - intros e ->. cbn. rewrite length_app, Nat.add_1_r. reflexivity.
Qed.

Lemma getNumberOfEntries_frame_witness :
  console (run getNumberOfEntries Sample.start) = console Sample.start
  /\ List.length (console (run getNumberOfEntries Sample.startDown))
     = S (List.length (console Sample.startDown)).
Proof.
  split.
  - apply (getNumberOfEntries_frame Sample.start)
      with (response := {| xTotalCount := Some 12;
                           body := Normal (Countries [Sample.france; Sample.germany]) |}).
    reflexivity.
  - apply (getNumberOfEntries_frame Sample.startDown)
      with (e := {| message := "Failed to fetch" |}).
    reflexivity.
Defined.

(** X3. An answer without the [X-Total-Count] header counts as 0 entries
    and nothing is logged; a click on the next button that gets such an
    answer does not advance from any page of 1 or more. *)
Theorem missing_count_header_reads_as_zero (w : World) (response : Response) :
  nextAnswer w (countUrl (this w)) = Normal response ->
  xTotalCount response = None ->
  result getNumberOfEntries w = Normal 0
  /\ console (run getNumberOfEntries w) = console w
  /\ (1 <= currentPage (this w) ->
        this (run handleNextButtonClick w) = this w
        /\ console (run handleNextButtonClick w) = console w).
Proof.
  intros Hanswer Hheader.
  split; [ rewrite getNumberOfEntries_result, Hanswer; cbn;
           unfold totalCountOf; now rewrite Hheader | ].
  assert (Hconsole : console (run getNumberOfEntries w) = console w)
    by (unfold run; rewrite getNumberOfEntries_eq, Hanswer; reflexivity).
  split; [ exact Hconsole | ].
  intros Hpage. rewrite handleNextButtonClick_run, Hanswer.
  cbn [countAnswer]. unfold totalCountOf. rewrite Hheader.
  replace (Js.ceilDiv 0 (limitValue (limit (this w)))) with 0
    by (destruct (limit (this w)); reflexivity).
  destruct (Z.ltb_spec (currentPage (this w)) 0) as [Hneg | _]; [ lia | ].
  split; [ apply getNumberOfEntries_this | exact Hconsole ].
Qed.

Lemma missing_count_header_reads_as_zero_witness :
  result getNumberOfEntries
         {| this := initialFields Sample.url; document := Sample.page; console := [];
            network := fun _ _ => Normal {| xTotalCount := None; body := Normal (Countries []) |};
            requests := [] |}
  = Normal 0.
Proof.
  apply (missing_count_header_reads_as_zero
           {| this := initialFields Sample.url; document := Sample.page; console := [];
              network := fun _ _ => Normal {| xTotalCount := None; body := Normal (Countries []) |};
              requests := [] |}
           {| xTotalCount := None; body := Normal (Countries []) |});
    reflexivity.
Defined.

(** ** [fetchData] *)

(** X4. A refresh whose page request is answered with a body that parses.
    When the body is an array of countries, the rows become one row per
    country, in the order of the array (where the page has a [tbody]); the
    message of a failed page request is not logged; and the requests made
    are the page request followed, only where the summary element exists,
    by one count request; without the summary element nothing is logged
    and no summary appears. When the body is anything else and the page has
    a [tbody], the rows are cleared and only those of the countries that
    come first are shown, the error of the loop is caught and logged as a
    failed page request, the summary stays as it was and no count request
    is made. *)
Theorem fetchData_success (w : World) (response : Response) :
  nextAnswer w (requestUrl (this w)) = Normal response ->
  let w' := run fetchData w in
  (forall data,
      body response = Normal (Countries data) ->
      tbody (document w')
      = match tbody (document w) with
        | Some _ => Some (map renderRow data)
        | None => None
        end
      /\ issued w w'
         = match entriesAmount (document w) with
           | Some _ => [requestUrl (this w); countUrl (this w)]
           | None => [requestUrl (this w)]
           end
      /\ (forall entry,
            In entry (console w') ->
            In entry (console w)
            \/ fst entry = "Error fetching total amount of API entries:")
      /\ (entriesAmount (document w) = None ->
            entriesAmount (document w') = None /\ console w' = console w))
  /\ (forall rendered e,
        body response = Normal (NotCountries rendered e) ->
        tbody (document w) <> None ->
        tbody (document w') = Some (map renderRow rendered)
        /\ entriesAmount (document w') = entriesAmount (document w)
        /\ console w'
           = (console w ++ [("Error fetching data from API:", message e)])%list
        /\ issued w w' = [requestUrl (this w)]).
Proof.
  intros Hanswer. cbv zeta. unfold nextAnswer in Hanswer. split.
  - intros data Hbody.
    assert (Hrun :
      run fetchData w
      = let rendered :=
          putDocument
            {| tbody := match tbody (document w) with
                        | Some _ => Some (map renderRow data)
                        | None => None
                        end;
               entriesAmount := entriesAmount (document w);
               querySelectorError := querySelectorError (document w) |}
            (requested (requestUrl (this w)) w) in
        match entriesAmount (document w) with
        | Some _ =>
            putDocument
              {| tbody := tbody (document rendered);
                 entriesAmount :=
                   Some (summaryText (offsetOf (this w)) (limitValue (limit (this w)))
                           (countAnswer (nextAnswer rendered (countUrl (this w)))));
                 querySelectorError := querySelectorError (document w) |}
              (run getNumberOfEntries rendered)
        | None => rendered
        end).
    { destruct w as [self [rows span engine] log net sent]. cbn in Hanswer.
      unfold_prog. cbn. rewrite Hanswer. cbn. rewrite Hbody. cbn.
      destruct rows, span; cbn; rewrite ?rendered_rows; cbn; try reflexivity;
        destruct (net _ (apiUrl self ++ "?_limit=1")); reflexivity. }
    rewrite Hrun. cbv zeta.
    destruct (entriesAmount (document w)) eqn:Hspan.
    + split; [ reflexivity | ].
      split.
      { apply issued_app. cbn [requests putDocument].
        rewrite getNumberOfEntries_requests. cbn.
        rewrite <- app_assoc. reflexivity. }
      split; [ | discriminate ].
      intros entry. cbn [console putDocument].
      unfold run. rewrite getNumberOfEntries_eq.
      destruct (nextAnswer _ _); cbn; [ now left | ].
      rewrite in_app_iff. intros [Hold | [<- | []]]; [ now left | now right ].
    + split; [ reflexivity | ].
      split; [ now apply issued_app | ].
      split; [ now left | ].
      intros _. split; reflexivity.
  - intros rendered e Hbody Hrows.
    assert (Hrun :
      run fetchData w
      = logged ("Error fetching data from API:", message e)
          (putDocument
             {| tbody := Some (map renderRow rendered);
                entriesAmount := entriesAmount (document w);
                querySelectorError := querySelectorError (document w) |}
             (requested (requestUrl (this w)) w))).
    { destruct w as [self [rows span engine] log net sent]. cbn in Hanswer, Hrows.
      unfold_prog. cbn. rewrite Hanswer. cbn. rewrite Hbody. cbn.
      destruct rows; [ | now contradiction Hrows ].
      cbn. rewrite rendered_rows. reflexivity. }
    rewrite Hrun. repeat split. now apply issued_app.
Qed.

Lemma fetchData_success_witness :
  tbody (document (run fetchData Sample.start))
  = Some [renderRow Sample.france; renderRow Sample.germany]
  /\ console
       (run fetchData
          {| this := initialFields Sample.url; document := Sample.page;
             console := [];
             network := fun _ _ =>
               Normal {| xTotalCount := Some 12;
                         body := Normal (NotCountries [Sample.france]
                                           {| message := "not a function" |}) |};
             requests := [] |})
     = [("Error fetching data from API:", "not a function")].
Proof.
  split.
  - destruct (fetchData_success Sample.start
                {| xTotalCount := Some 12;
                   body := Normal (Countries [Sample.france; Sample.germany]) |})
      as [Hcountries _]; [ reflexivity | ].
    apply (Hcountries [Sample.france; Sample.germany]). reflexivity.
  - destruct (fetchData_success
                {| this := initialFields Sample.url; document := Sample.page;
                   console := [];
                   network := fun _ _ =>
                     Normal {| xTotalCount := Some 12;
                               body := Normal (NotCountries [Sample.france]
                                                 {| message := "not a function" |}) |};
                   requests := [] |}
                {| xTotalCount := Some 12;
                   body := Normal (NotCountries [Sample.france]
                                     {| message := "not a function" |}) |})
      as [_ Hother]; [ reflexivity | ].
    apply (Hother [Sample.france] {| message := "not a function" |});
      [ reflexivity | vm_compute; discriminate ].
Defined.

(** ** What every run of the page keeps *)

Lemma buildApiUrl_suffix (self : CountryTable) (base : string) :
  exists suffix, buildApiUrl self base = base ++ suffix.
Proof.
  unfold buildApiUrl.
  destruct (hasKeys (searchParams self)), (truthy (sortColumn self) && _);
    rewrite ?append_assoc; eexists; try reflexivity.
  symmetry. apply append_empty_r.
Qed.

Lemma requestUrl_fromOrigin (self : CountryTable) :
  fromOrigin (apiUrl self) (requestUrl self).
Proof.
  unfold requestUrl.
  destruct (buildApiUrl_suffix self
              (apiUrl self ++ "?_limit=" ++ Js.toString (limitValue (limit self))
                          ++ "&_start=" ++ Js.toString (offsetOf self)))
    as [suffix Hsuffix].
  rewrite Hsuffix, append_assoc. eexists. reflexivity.
Qed.

Lemma countUrl_fromOrigin (self : CountryTable) :
  fromOrigin (apiUrl self) (countUrl self).
Proof. eexists. reflexivity. Qed.

Lemma extends_refl (w : World) : extends w w.
Proof.
  repeat split; exists []; (split; [ now rewrite app_nil_r | constructor ]).
Qed.

Lemma extends_trans (w1 w2 w3 : World) :
  extends w1 w2 -> extends w2 w3 -> extends w1 w3.
Proof.
  intros (Hurl1 & Hnet1 & (logs1 & Hlog1 & Hknown1) & (urls1 & Hreq1 & Horigin1))
         (Hurl2 & Hnet2 & (logs2 & Hlog2 & Hknown2) & (urls2 & Hreq2 & Horigin2)).
  rewrite Hurl1 in Horigin2.
  repeat split; try congruence.
  - exists (logs1 ++ logs2)%list. split.
    + now rewrite Hlog2, Hlog1, app_assoc.
    + apply Forall_app. now split.
  - exists (urls1 ++ urls2)%list. split.
    + now rewrite Hreq2, Hreq1, app_assoc.
    + apply Forall_app. now split.
Qed.

Lemma putThis_extends (w : World) (self : CountryTable) :
  apiUrl self = apiUrl (this w) -> extends w (putThis self w).
Proof.
  intros Hurl.
  repeat split; try assumption;
    exists []; (split; [ cbn; now rewrite app_nil_r | constructor ]).
Qed.

Lemma getNumberOfEntries_extends (w : World) : extends w (run getNumberOfEntries w).
Proof.
  split; [ now rewrite getNumberOfEntries_this | ].
  split; [ apply getNumberOfEntries_network | ].
  split.
  - unfold run. rewrite getNumberOfEntries_eq.
    destruct (nextAnswer w _) as [response | e]; cbn.
    + exists []. split; [ now rewrite app_nil_r | constructor ].
    + eexists. split; [ reflexivity | ].
      constructor; [ now right | constructor ].
  - eexists. split; [ apply getNumberOfEntries_requests | ].
    constructor; [ apply countUrl_fromOrigin | constructor ].
Qed.

Lemma fetchData_extends (w : World) : extends w (run fetchData w).
Proof.
  split; [ now rewrite fetchData_this | ].
  split; [ apply fetchData_network | ].
  pose proof (requestUrl_fromOrigin (this w)) as Hpage.
  pose proof (countUrl_fromOrigin (this w)) as Hcount.
  unfold countUrl in Hcount.
  split.
  - run_prog;
      first [ exists []; split; [ now rewrite app_nil_r | constructor ]
            | eexists; split; [ reflexivity | ];
              constructor; [ first [ now left | now right ] | constructor ] ].
  - run_prog; rewrite <- ?app_assoc; cbn [app];
      (eexists; split; [ reflexivity | ]); repeat (constructor; try assumption).
Qed.

Lemma dispatch_extends (w : World) (e : Event) : extends w (run (dispatch e) w).
Proof.
  assert (Hrefresh : forall self,
             apiUrl self = apiUrl (this w) ->
             extends w (run fetchData (putThis self w))).
  { intros self Hurl.
    apply (extends_trans _ (putThis self w)); [ now apply putThis_extends | ].
    apply fetchData_extends. }
  destruct e as [value | index value | | | [column | ]]; cbn [dispatch].
  - rewrite handleSelectChange_run. now apply Hrefresh.
  - destruct (_ && _); [ | apply extends_refl ].
    rewrite handleInput_run. apply Hrefresh.
    unfold filtered. destruct (2 <=? _); [ destruct (_ && _) | ]; reflexivity.
  - rewrite handlePrevButtonClick_run.
    destruct (1 <? _); [ now apply Hrefresh | apply extends_refl ].
  - rewrite handleNextButtonClick_run.
    pose proof (getNumberOfEntries_extends w) as Hcounted.
    destruct (_ <? _); [ | exact Hcounted ].
    apply (extends_trans _ _ _ Hcounted).
    apply (extends_trans _ (putThis (withCurrentPage (currentPage (this w) + 1) (this w))
                                    (run getNumberOfEntries w))).
    + apply putThis_extends. now rewrite getNumberOfEntries_this.
    + apply fetchData_extends.
  - destruct (truthy (Some column)); [ | apply extends_refl ].
    rewrite handleSortClick_run. cbv zeta.
    destruct (selectorError w column);
      [ now apply putThis_extends | now apply Hrefresh ].
  - apply extends_refl.
Qed.

Lemma runEvents_extends (events : list Event) (w : World) :
  extends w (runEvents events w).
Proof.
  revert w. induction events as [ | e events IH]; intros w.
  - apply extends_refl.
  - apply (extends_trans _ (run (dispatch e) w)).
    + apply dispatch_extends.
    + apply IH.
Qed.

Lemma newCountryTable_extends (url : string) (doc : Document) (net : Network) :
  extends {| this := initialFields url; document := doc; console := [];
             network := net; requests := [] |}
          (newCountryTable url doc net).
Proof. apply fetchData_extends. Qed.

(** X5. Whatever the page, the endpoint and the events, the only messages
    ever logged are the two of [fetchData] and [getNumberOfEntries]: the
    message of the [catch] in [handleNextButtonClick] is never logged. *)
Theorem console_only_fetch_errors
        (url : string) (doc : Document) (net : Network) (events : list Event) :
  let w := runEvents events (newCountryTable url doc net) in
  Forall knownLog (console w)
  /\ (forall msg, ~ In ("Error handling next button click:", msg) (console w)).
Proof.
  cbv zeta.
  assert (Hknown : Forall knownLog
                     (console (runEvents events (newCountryTable url doc net)))).
  { destruct (extends_trans _ _ _ (newCountryTable_extends url doc net)
                (runEvents_extends events _))
      as (_ & _ & (logs & Hlogs & Hknown) & _).
    now rewrite Hlogs. }
  split; [ exact Hknown | ].
  intros msg Hin.
  rewrite Forall_forall in Hknown.
  destruct (Hknown _ Hin) as [Hprefix | Hprefix]; discriminate Hprefix.
Qed.

(** X6. The base address given to the constructor stays the base address
    for good, the endpoint is the same, and every request ever made is for
    that base address followed by a query. *)
Theorem requests_stay_on_origin
        (url : string) (doc : Document) (net : Network) (events : list Event) :
  let w := runEvents events (newCountryTable url doc net) in
  apiUrl (this w) = url
  /\ network w = net
  /\ Forall (fromOrigin url) (requests w).
Proof.
  cbv zeta.
  destruct (extends_trans _ _ _ (newCountryTable_extends url doc net)
              (runEvents_extends events _))
    as (Hurl & Hnet & _ & (urls & Hurls & Horigin)).
  repeat split; try assumption.
  now rewrite Hurls.
Qed.

(** ** Trimming the search text *)

Lemma trimStart_startsClean (s : string) : startsClean (Js.trimStart s).
Proof.
  induction s as [ | c rest IH]; cbn; [ exact I | ].
  destruct (Js.isWhiteSpace c) eqn:Hc; [ exact IH | exact Hc ].
Qed.

Lemma trimStart_clean (s : string) : startsClean s -> Js.trimStart s = s.
Proof. destruct s as [ | c rest]; cbn; [ reflexivity | now intros -> ]. Qed.

Lemma trimEnd_startsClean (s : string) : startsClean s -> startsClean (Js.trimEnd s).
Proof.
  destruct s as [ | c rest]; cbn; [ trivial | ].
  intros Hc. destruct (Js.trimEnd rest); [ rewrite Hc | ]; exact Hc.
Qed.

Lemma trimEnd_cons (c : ascii) (rest : string) :
  Js.trimEnd (String c rest)
  = match Js.trimEnd rest with
    | EmptyString => if Js.isWhiteSpace c then EmptyString else String c EmptyString
    | kept => String c kept
    end.
Proof. reflexivity. Qed.

Lemma trimEnd_idempotent (s : string) : Js.trimEnd (Js.trimEnd s) = Js.trimEnd s.
Proof.
  induction s as [ | c rest IH]; [ reflexivity | ].
  rewrite trimEnd_cons.
  destruct (Js.trimEnd rest) as [ | k kept] eqn:Hrest.
  - destruct (Js.isWhiteSpace c) eqn:Hc; [ reflexivity | ].
    rewrite trimEnd_cons, Hc. reflexivity.
  - rewrite trimEnd_cons, IH. reflexivity.
Qed.

Lemma trim_idempotent (s : string) : Js.trim (Js.trim s) = Js.trim s.
Proof.
  unfold Js.trim.
  rewrite (trimStart_clean (Js.trimEnd (Js.trimStart s))).
  - apply trimEnd_idempotent.
  - apply trimEnd_startsClean, trimStart_startsClean.
Qed.

Lemma trimStart_allWhiteSpace (s : string) :
  allUnits Js.isWhiteSpace s = true -> Js.trimStart s = "".
Proof.
  induction s as [ | c rest IH]; cbn; [ reflexivity | ].
  destruct (Js.isWhiteSpace c); cbn; [ exact IH | discriminate ].
Qed.

(** X7. [handleInput] looks at the text of the input only through its
    trimmed form: white space around the text changes nothing, and a text
    of white space only, however long, clears the filter. *)
Theorem handleInput_ignores_surrounding_space
        (w : World) (index : Z) (value : string) :
  run (handleInput index value) w = run (handleInput index (Js.trim value)) w
  /\ (allUnits Js.isWhiteSpace value = true ->
        searchParams (this (run (handleInput index value) w)) = []).
Proof.
  split.
  - unfold handleInput. rewrite trim_idempotent. reflexivity.
  - intros Hblank. rewrite handleInput_run, fetchData_this.
    unfold filtered, Js.trim. rewrite (trimStart_allWhiteSpace _ Hblank).
    reflexivity.
Qed.

Lemma handleInput_ignores_surrounding_space_witness :
  searchParams (this (run (handleInput 2 "     ") Sample.start)) = [].
Proof.
  apply (handleInput_ignores_surrounding_space Sample.start 2 "     ").
  reflexivity.
Defined.

(** X8. With an index that is none of 1 to 4 (the [default] of the switch)
    and a trimmed text of 2 characters or more, [handleInput] keeps the
    filter it finds, and still sets the page to 1 and refreshes. *)
Theorem handleInput_other_index_keeps_filter
        (w : World) (index : Z) (value : string) :
  index < 1 \/ 4 < index ->
  2 <= Js.length (Js.trim value) ->
  let w' := run (handleInput index value) w in
  this w' = withCurrentPage 1 (this w) /\ refreshedAfter 0 w w'.
Proof.
  intros Hindex Hlong. cbv zeta. rewrite handleInput_run, fetchData_this.
  unfold filtered.
  replace (2 <=? Js.length (Js.trim value)) with true
    by (symmetry; apply Z.leb_le; exact Hlong).
  replace ((1 <=? index) && (index <=? 4)) with false
    by (symmetry; apply andb_false_iff; rewrite !Z.leb_gt; lia).
  split; [ reflexivity | now apply fetchData_refreshed ].
Qed.

Lemma handleInput_other_index_keeps_filter_witness :
  this (run (handleInput 5 "fr") Sample.sortedDesc)
  = withCurrentPage 1 (this Sample.sortedDesc).
Proof.
  apply (handleInput_other_index_keeps_filter Sample.sortedDesc 5 "fr").
  - right. reflexivity.
  - vm_compute. discriminate.
Defined.

(** ** The fields in every reachable world *)

Lemma isFilterParam_filterParam (index : Z) : isFilterParam (filterParam index).
Proof.
  unfold isFilterParam, filterParam.
  destruct index as [ | [ [ | | ] | [ | | ] | ] | ]; auto.
Qed.

Lemma dispatch_stored (w : World) (e : Event) :
  filterStored (this w) /\ sortStored (this w) ->
  filterStored (this (run (dispatch e) w)) /\ sortStored (this (run (dispatch e) w)).
Proof.
  intros [Hfilter Hsort].
  destruct e as [value | index value | | | [column | ]]; cbn [dispatch].
  - rewrite handleSelectChange_run, fetchData_this. now split.
  - destruct (_ && _) eqn:Hindex; [ | now split ].
    rewrite handleInput_run, fetchData_this. unfold filtered. rewrite Hindex.
    destruct (Z.leb_spec 2 (Js.length (Js.trim value))) as [Hlong | Hshort].
    + split; [ | exact Hsort ]. right.
      exists (filterParam index), (Js.trim value).
      split; [ reflexivity | ].
      split; [ apply isFilterParam_filterParam | ].
      split; [ apply trim_idempotent | exact Hlong ].
    + split; [ now left | exact Hsort ].
  - rewrite handlePrevButtonClick_run.
    destruct (1 <? _); [ rewrite fetchData_this | ]; now split.
  - rewrite handleNextButtonClick_this.
    destruct (_ <? _); now split.
  - destruct (truthy (Some column)) eqn:Hnamed; [ | now split ].
    rewrite handleSortClick_this.
    split; [ exact Hfilter | ].
    unfold sortStored. cbn. intros ->. discriminate Hnamed.
  - now split.
Qed.

(** X9. In every world the page can reach there is no filter or exactly
    one, under one of the four parameter names, whose text is trimmed and
    has at least 2 characters; and either no sort column is set and the
    direction is still ascending, or the sort column has a non-empty name. *)
Theorem reachable_fields_stored (w : World) :
  reachable w -> filterStored (this w) /\ sortStored (this w).
Proof.
  induction 1 as [url doc net | w e _ IH].
  - unfold newCountryTable. rewrite fetchData_this.
    split; [ now left | reflexivity ].
  - now apply dispatch_stored.
Qed.

Lemma reachable_fields_stored_witness :
  filterStored (this Sample.sortedDesc) /\ sortStored (this Sample.sortedDesc).
Proof.
  apply reachable_fields_stored.
  apply reachable_event, reachable_event, reachable_new.
Defined.

(** X10. In every reachable world the offset of the page is a multiple of
    the page size and is not negative, so the summary never starts below 1
    and its two bounds are pageSize - 1 apart. *)
Theorem reachable_offset_bounds (w : World) :
  reachable w ->
  let offset := offsetOf (this w) in
  let pageSize := limitValue (limit (this w)) in
  0 <= offset
  /\ offset mod pageSize = 0
  /\ offset / pageSize = currentPage (this w) - 1
  /\ 1 <= offset + 1 <= offset + pageSize.
Proof.
  intros Hreach. cbv zeta.
  destruct (reachable_wellFormed w Hreach) as [Hpage _ _].
  pose proof (limitValue_positive (limit (this w))) as Hsize.
  unfold offsetOf.
  split; [ nia | ].
  split; [ apply Z.mod_mul; lia | ].
  split; [ apply Z.div_mul; lia | nia ].
Qed.

Lemma reachable_offset_bounds_witness :
  0 <= offsetOf (this Sample.lastPage).
Proof.
  apply (reachable_offset_bounds Sample.lastPage).
  apply reachable_event, reachable_event, reachable_new.
Defined.

(** ** No handler throws *)




(** ** How the handlers compose *)

(** X12. When a click on the next button changes the page, the new page
    begins inside the collection as just counted: its offset is below the
    count that [getNumberOfEntries] returned. *)
Theorem next_page_starts_within_count (w : World) :
  let totalCount := countAnswer (nextAnswer w (countUrl (this w))) in
  let w' := run handleNextButtonClick w in
  currentPage (this w') <> currentPage (this w) ->
  currentPage (this w') = currentPage (this w) + 1
  /\ offsetOf (this w') = currentPage (this w) * limitValue (limit (this w))
  /\ offsetOf (this w') < totalCount.
Proof.
  cbv zeta. rewrite handleNextButtonClick_this.
  pose proof (ceilDiv_spec (countAnswer (nextAnswer w (countUrl (this w))))
                (limitValue (limit (this w)))
                (limitValue_positive (limit (this w)))) as Hceil.
  destruct (Z.ltb_spec (currentPage (this w))
              (Js.ceilDiv (countAnswer (nextAnswer w (countUrl (this w))))
                          (limitValue (limit (this w))))) as [Hlt | _];
    [ | intros Hchanged; now contradiction Hchanged ].
  intros _. unfold offsetOf. cbn [currentPage limit withCurrentPage].
  split; [ reflexivity | ].
  split; [ f_equal; lia | nia ].
Qed.

Lemma next_page_starts_within_count_witness :
  offsetOf (this (run handleNextButtonClick Sample.start)) < 12.
Proof.
  apply (next_page_starts_within_count Sample.start).
  vm_compute. discriminate.
Defined.

(** X13. From a page of 1 or more, a click on the previous button right
    after a click on the next button that changed the page brings all the
    fields back to what they were. *)
Theorem previous_undoes_next (w : World) :
  1 <= currentPage (this w) ->
  currentPage (this (run handleNextButtonClick w)) <> currentPage (this w) ->
  this (run handlePrevButtonClick (run handleNextButtonClick w)) = this w.
Proof.
  intros Hpage.
  rewrite handlePrevButtonClick_run, handleNextButtonClick_this.
  destruct (_ <? Js.ceilDiv _ _); [ | intros Hchanged; now contradiction Hchanged ].
  intros _. cbn [currentPage withCurrentPage].
  destruct (Z.ltb_spec 1 (currentPage (this w) + 1)) as [_ | Hle]; [ | lia ].
  rewrite fetchData_this. cbn [this putThis].
  destruct (this w) as [url page size params column direction].
  unfold withCurrentPage. cbn. f_equal. lia.
Qed.

Lemma previous_undoes_next_witness :
  this (run handlePrevButtonClick (run handleNextButtonClick Sample.start))
  = this Sample.start.
Proof.
  apply (previous_undoes_next Sample.start); vm_compute; discriminate.
Defined.

(** X14. The next button does not look at the filter or at the sort: its
    one count request is for the base address with [?_limit=1], and with
    any other filter, sort column and direction in the fields the click
    changes the page in exactly the same way. *)
Theorem next_ignores_filter_and_sort
        (w : World) (params : list (string * string))
        (column : option string) (direction : SortDirection) :
  let others self :=
    withSortDirection direction (withSortColumn column (withSearchParams params self)) in
  let w2 := putThis (others (this w)) w in
  this (run handleNextButtonClick w2) = others (this (run handleNextButtonClick w))
  /\ nth_error (issued w2 (run handleNextButtonClick w2)) 0
     = Some (apiUrl (this w) ++ "?_limit=1").
Proof.
  cbv zeta. split.
  - rewrite !handleNextButtonClick_this.
    change (nextAnswer (putThis _ w) (countUrl _))
      with (nextAnswer w (countUrl (this w))).
    cbn [this putThis currentPage limit withSortDirection withSortColumn
         withSearchParams].
    destruct (_ <? _); reflexivity.
  - rewrite handleNextButtonClick_run.
    destruct (_ <? _).
    + match goal with
      | |- context [run fetchData ?refreshed] =>
          destruct (fetchData_requests refreshed) as [later Hlater]
      end.
      erewrite issued_app; [ | rewrite Hlater; cbn [requests putThis];
                                rewrite getNumberOfEntries_requests, <- app_assoc;
                                reflexivity ].
      reflexivity.
    + erewrite issued_app; [ | apply getNumberOfEntries_requests ].
      reflexivity.
Qed.

(** X15. The select and the search inputs overwrite: after two changes of
    the select the fields are those of the second alone, and after two
    input events, the second from one of the four inputs, the fields are
    those of the second alone. *)
Theorem last_setting_wins (w : World) :
  (forall first second,
      this (run (handleSelectChange second) (run (handleSelectChange first) w))
      = this (run (handleSelectChange second) w))
  /\ (forall otherIndex otherValue index value,
        1 <= index <= 4 ->
        this (run (handleInput index value) (run (handleInput otherIndex otherValue) w))
        = this (run (handleInput index value) w)).
Proof.
  split.
  - intros first second. now rewrite !handleSelectChange_run, !fetchData_this.
  - intros otherIndex otherValue index value Hindex.
    rewrite !handleInput_run, !fetchData_this.
    cbn [this putThis]. unfold filtered at 1 3.
    replace ((1 <=? index) && (index <=? 4)) with true
      by (symmetry; apply andb_true_iff; split; apply Z.leb_le; lia).
    unfold filtered.
    destruct (2 <=? Js.length (Js.trim value));
      destruct (2 <=? Js.length (Js.trim otherValue));
      try destruct ((1 <=? otherIndex) && (otherIndex <=? 4)); reflexivity.
Qed.

Lemma last_setting_wins_witness :
  this (run (handleInput 1 "fr") (run (handleInput 2 "paris") Sample.start))
  = this (run (handleInput 1 "fr") Sample.start).
Proof.
  apply (last_setting_wins Sample.start). lia.
Defined.

(** X16. Clicks on one column have period two: three clicks in a row on
    the same column leave the same fields as one click. *)
Theorem handleSortClick_period_two (w : World) (column : string) :
  let click := run (handleSortClick column) in
  this (click (click (click w))) = this (click w).
Proof.
  cbv zeta. rewrite !handleSortClick_this.
  cbn [this putThis sortColumn sortDirection withSortColumn withSortDirection
       strictEq].
  rewrite String.eqb_refl.
  destruct (strictEq column (sortColumn (this w))); [ | reflexivity ].
  destruct (sortDirection (this w)); reflexivity.
Qed.

(** ** The URL of a refresh *)

Lemma length_append (a b : string) :
  String.length (a ++ b) = (String.length a + String.length b)%nat.
Proof.
  induction a as [ | c a IH]; [ reflexivity | ].
  change (S (String.length (a ++ b)) = S (String.length a + String.length b)).
  now rewrite IH.
Qed.

Lemma append_grows (base : string) (c : ascii) (rest : string) :
  base ++ String c rest <> base.
Proof.
  intros Hsame. apply (f_equal String.length) in Hsame.
  rewrite length_append in Hsame. cbn in Hsame. lia.
Qed.

(** X17. [buildApiUrl] only ever appends to the base URL, and it returns
    the base URL unchanged exactly when there is no filter and the sort
    column is null or the empty string. *)
Theorem buildApiUrl_unchanged_iff (self : CountryTable) (base : string) :
  fromOrigin base (buildApiUrl self base)
  /\ (buildApiUrl self base = base
      <-> searchParams self = [] /\ truthy (sortColumn self) = false).
Proof.
  split; [ apply buildApiUrl_suffix | ].
  unfold buildApiUrl.
  replace (truthy (Some (directionString (sortDirection self)))) with true
    by (now destruct (sortDirection self)).
  rewrite andb_true_r.
  destruct (searchParams self) as [ | pair others] eqn:Hparams;
    destruct (truthy (sortColumn self)) eqn:Hsort; cbn [hasKeys];
    rewrite ?append_assoc.
  - split; [ intros Hsame; now apply append_grows in Hsame | intros [_ Hno]; discriminate ].
  - split; [ now split | reflexivity ].
  - split; [ intros Hsame; now apply append_grows in Hsame | intros [Hno _]; discriminate ].
  - split; [ intros Hsame; now apply append_grows in Hsame | intros [Hno _]; discriminate ].
Qed.

Lemma allUnits_append (p : ascii -> bool) (a b : string) :
  allUnits p (a ++ b) = allUnits p a && allUnits p b.
Proof.
  induction a as [ | c a IH]; [ reflexivity | ].
  change (p c && allUnits p (a ++ b) = p c && allUnits p a && allUnits p b).
  now rewrite IH, andb_assoc.
Qed.

Lemma encodeUnit_safe (c : ascii) :
  allUnits isQuerySafe (String.concat "" (map Js.encodeByte (Js.utf8 c))) = true.
Proof. destruct c as [[] [] [] [] [] [] [] []]; reflexivity. Qed.

Lemma urlencode_safe (s : string) : allUnits isQuerySafe (Js.urlencode s) = true.
Proof.
  induction s as [ | c rest IH]; [ reflexivity | ].
  change (Js.urlencode (String c rest))
    with (String.concat "" (map Js.encodeByte (Js.utf8 c)) ++ Js.urlencode rest).
  now rewrite allUnits_append, encodeUnit_safe, IH.
Qed.

(** X18. The filter that [buildApiUrl] appends is [&name=text] with the
    name and the text urlencoded: both consist of letters, digits and
    [* - . _ + %] only, so whatever the text of the search input is, it
    cannot bring a [&] or a [=] of its own into the URL. *)
Theorem filter_text_is_encoded
        (self : CountryTable) (base key text : string) :
  searchParams self = [(key, text)] ->
  sortColumn self = None ->
  buildApiUrl self base = base ++ "&" ++ Js.urlencode key ++ "=" ++ Js.urlencode text
  /\ allUnits isQuerySafe (Js.urlencode key) = true
  /\ allUnits isQuerySafe (Js.urlencode text) = true
  /\ isQuerySafe "&" = false /\ isQuerySafe "=" = false.
Proof.
  intros Hparams Hsort.
  split; [ unfold buildApiUrl; rewrite Hparams, Hsort; reflexivity | ].
  split; [ apply urlencode_safe | ].
  split; [ apply urlencode_safe | split; reflexivity ].
Qed.

Lemma filter_text_is_encoded_witness :
  buildApiUrl (withSearchParams [("name_like", "a&b=c d")] (initialFields Sample.url))
              Sample.url
  = "http://localhost:3005/countries&name_like=a%26b%3Dc+d".
Proof.
  destruct (filter_text_is_encoded
              (withSearchParams [("name_like", "a&b=c d")] (initialFields Sample.url))
              Sample.url "name_like" "a&b=c d") as [Hurl _];
    [ reflexivity | reflexivity | ].
  rewrite Hurl. reflexivity.
Defined.

Lemma urlencode_filterParam (index : Z) :
  Js.urlencode (filterParam index) = filterParam index.
Proof.
  unfold filterParam.
  destruct index as [ | [ [ | | ] | [ | | ] | ] | ]; reflexivity.
Qed.

(** X19. After an event of one of the four search inputs the refresh asks
    for the first page ([_start=0]) with the page size as it was, followed
    by the filter of that input alone, its name as it is and the trimmed
    text urlencoded, when the trimmed text has 2 characters or more, and by
    no filter at all when it is shorter; the sort, if one is set, follows. *)
Theorem handleInput_refresh_url (w : World) (index : Z) (value : string) :
  1 <= index <= 4 ->
  sortColumn (this w) <> Some "" ->
  let text := Js.trim value in
  let w' := run (handleInput index value) w in
  refreshedAfter 0 w w'
  /\ requestUrl (this w')
     = apiUrl (this w)
       ++ "?_limit=" ++ Js.toString (limitValue (limit (this w))) ++ "&_start=0"
       ++ (if 2 <=? Js.length text
           then "&" ++ filterParam index ++ "=" ++ Js.urlencode text
           else "")
       ++ match sortColumn (this w) with
          | Some column =>
              "&_sort=" ++ column ++ "&_order=" ++ directionString (sortDirection (this w))
          | None => ""
          end.
Proof.
  intros Hindex Hsort. cbv zeta.
  rewrite handleInput_run, fetchData_this.
  split; [ now apply fetchData_refreshed | ].
  cbn [this putThis]. unfold filtered.
  replace ((1 <=? index) && (index <=? 4)) with true
    by (symmetry; apply andb_true_iff; split; apply Z.leb_le; lia).
  destruct (2 <=? Js.length (Js.trim value));
    (rewrite requestUrl_queryString; [ | cbn; lia | exact Hsort ]);
    unfold queryString, queryOf;
    cbn [qLimit qStart qFilter qSort apiUrl limit currentPage searchParams
         sortColumn sortDirection withCurrentPage withSearchParams hd_error];
    rewrite ?urlencode_filterParam, Z.sub_diag, Z.mul_0_l;
    destruct (sortColumn (this w)); reflexivity.
Qed.

Lemma handleInput_refresh_url_witness :
  requestUrl (this (run (handleInput 1 " fr ") Sample.sortedDesc))
  = "http://localhost:3005/countries?_limit=5&_start=0&name_like=fr&_sort=name&_order=desc"
  /\ requestUrl (this (run (handleInput 1 "f") Sample.sortedDesc))
     = "http://localhost:3005/countries?_limit=5&_start=0&_sort=name&_order=desc".
Proof.
  split.
  - destruct (handleInput_refresh_url Sample.sortedDesc 1 " fr ") as [_ Hurl];
      [ lia | vm_compute; discriminate | ].
    rewrite Hurl. reflexivity.
  - destruct (handleInput_refresh_url Sample.sortedDesc 1 "f") as [_ Hurl];
      [ lia | vm_compute; discriminate | ].
    rewrite Hurl. reflexivity.
Defined.

(** ** Construction *)

(** X20. Whatever the page and the endpoint, the constructor leaves the
    fields at their initial values (page 1, five to a page, no filter, no
    sort), asks first for the base address with [?_limit=5&_start=0], makes
    at most two requests and logs at most one message; it creates no
    element: a page without [tbody] or without the summary stays so. *)
Theorem newCountryTable_initial (url : string) (doc : Document) (net : Network) :
  let w := newCountryTable url doc net in
  this w = initialFields url
  /\ nth_error (requests w) 0 = Some (url ++ "?_limit=5&_start=0")
  /\ (List.length (requests w) <= 2)%nat
  /\ (List.length (console w) <= 1)%nat
  /\ (tbody doc = None <-> tbody (document w) = None)
  /\ (entriesAmount doc = None <-> entriesAmount (document w) = None).
Proof.
  cbv zeta. unfold newCountryTable.
  split; [ apply fetchData_this | ].
  split; [ apply (fetchData_first_request
                    {| this := initialFields url; document := doc; console := [];
                       network := net; requests := [] |}) | ].
  destruct doc as [rows span].
  repeat split; run_prog; cbn; try lia; try congruence; try discriminate.
Qed.
